(** * EAS multi-campus attendance backend: campus access control and
    attendance eligibility

  A shallow embedding of the decision logic of the Django models,
  the campus-aware query set and the campus-context middleware:

  - [apps/campus/models.py]      (module [CampusModels])
  - [apps/accounts/models.py]    (module [Accounts])
  - [apps/events/models.py]      (module [Events])
  - [apps/attendance/models.py]  (modules [AttendanceModels], [Related])
  - [apps/campus/managers.py]    (module [Managers])
  - [apps/shared/middleware.py]  (module [Middleware])

  Tables are finite maps from primary key to row, JSON lists are lists,
  nullable fields are options, and Python truthiness is written out
  where the code relies on it. *)

From Stdlib Require Import Ascii String ZArith.
From stdpp Require Import base option list strings gmap pretty.

Open Scope Z_scope.

(** ** Python values the code relies on *)

Module Py.

(** Truthiness of an optional integer: [None] and [0] are falsy. *)
Definition truthy_int (o : option Z) : bool :=
  match o with
  | Some n => negb (n =? 0)
  | None => false
  end.

(** Truthiness of a string: only the empty string is falsy. *)
Definition truthy_str (s : string) : bool :=
  match s with
  | EmptyString => false
  | String _ _ => true
  end.

(** Truthiness of a list: only the empty list is falsy. *)
Definition truthy_list {A} (l : list A) : bool :=
  match l with
  | [] => false
  | _ :: _ => true
  end.

(** Truthiness of an optional object whose instances are always truthy
    (datetime, date, time, UUID). *)
Definition truthy_obj {A} (o : option A) : bool :=
  match o with
  | Some _ => true
  | None => false
  end.

(** [x in l] for a list of integers. *)
Definition contains (x : Z) (l : list Z) : bool := bool_decide (x ∈ l).

(** *** [int(s)] on a string of code points below 256

    As CPython reads it: white space is skipped on both sides (the ASCII
    characters tab, line feed, vertical tab, form feed, carriage return
    and space, and the two Latin-1 spaces U+0085 and U+00A0, which the
    conversion first turns into spaces; the separators U+001C to U+001F are
    not skipped), an optional sign follows, then decimal digits in which
    single underscores may separate digits.  A string of more than 4300
    digits is refused (the default of [sys.int_max_str_digits]).  [None]
    stands for [ValueError]. *)

Definition is_space (c : ascii) : bool :=
  let n := Z.of_nat (nat_of_ascii c) in
  ((9 <=? n) && (n <=? 13)) || (n =? 32) || (n =? 133) || (n =? 160).

Fixpoint lstrip (s : list ascii) : list ascii :=
  match s with
  | c :: s' => if is_space c then lstrip s' else s
  | [] => []
  end.

Definition strip (s : list ascii) : list ascii :=
  reverse (lstrip (reverse (lstrip s))).

Definition digit_val (c : ascii) : option Z :=
  let n := Z.of_nat (nat_of_ascii c) in
  if (48 <=? n) && (n <=? 57) then Some (n - 48) else None.

Fixpoint digits (acc : Z) (after_digit : bool) (s : list ascii) : option Z :=
  match s with
  | [] => if after_digit then Some acc else None
  | c :: s' =>
      if Ascii.eqb c "_"%char
      then (if after_digit then digits acc false s' else None)
      else match digit_val c with
           | Some d => digits (10 * acc + d) true s'
           | None => None
           end
  end.

(** The number of digits among the characters of [s]. *)
Fixpoint digit_count (s : list ascii) : Z :=
  match s with
  | [] => 0
  | c :: s' =>
      match digit_val c with Some _ => 1 | None => 0 end + digit_count s'
  end.

Definition max_str_digits : Z := 4300.

(** The digits after the sign, refused when there are too many. *)
Definition magnitude (s : list ascii) : option Z :=
  if max_str_digits <? digit_count s then None else digits 0 false s.

Definition int (s : string) : option Z :=
  match strip (list_ascii_of_string s) with
  | c :: r =>
      if Ascii.eqb c "+"%char then magnitude r
      else if Ascii.eqb c "-"%char then Z.opp <$> magnitude r
      else magnitude (c :: r)
  | [] => None
  end.

End Py.

(** ** [uuid.UUID]: a 128-bit integer and its canonical text *)

Module Uuid.

Record UUID := { int : N }.

Definition valid (u : UUID) : Prop := (int u < 2 ^ 128)%N.

Definition hex_digit (d : N) : ascii :=
  (if d <? 10 then ascii_of_N (48 + d) else ascii_of_N (87 + d))%N.

(** ['%0<width>x' % n], least significant digit last. *)
Fixpoint hex (width : nat) (n : N) : list ascii :=
  match width with
  | O => []
  | S w => hex w (n / 16)%N ++ [hex_digit (n mod 16)%N]
  end.

(** [str(u)]: the 32 hex digits grouped 8-4-4-4-12. *)
Definition str_chars (u : UUID) : list ascii :=
  let h := hex 32 (int u) in
  let dash := "-"%char in
  take 8 h ++ dash :: take 4 (drop 8 h) ++ dash :: take 4 (drop 12 h)
    ++ dash :: take 4 (drop 16 h) ++ dash :: drop 20 h.

Definition str (u : UUID) : string := string_of_list_ascii (str_chars u).

#[global] Arguments str : simpl never.

#[global] Instance UUID_eq_dec : EqDecision UUID.
Proof. solve_decision. Defined.

#[global] Instance UUID_countable : Countable UUID :=
  inj_countable' int Build_UUID (λ u, match u with Build_UUID _ => eq_refl end).

End Uuid.

(** ** [datetime]: dates, times of day, instants and clocks

  A date is a day number, a time of day a count of microseconds since
  midnight, and an instant a count of microseconds on the wall clock of
  the configured time zone, so that [make_aware] keeps the count.  The
  comparisons of aware datetimes see instants only.  Where the code reads
  the clock of a datetime, the datetime is kept with its own time zone
  ([datetime] below). *)

Module Datetime.

Definition us_per_minute : Z := 60000000.
Definition us_per_day : Z := 86400000000.

Definition combine (date time : Z) : Z := date * us_per_day + time.
Definition make_aware (dt : Z) : Z := dt.
Definition timedelta_minutes (minutes : Z) : Z := minutes * us_per_minute.

(** An aware datetime whose clock is read: its instant, and by how much
    the clock of its own [tzinfo] is ahead of the wall clock of the
    configured time zone: zero for a datetime in that zone, minus the
    zone's UTC offset for a datetime in UTC. *)
Record datetime := {
  instant : Z;
  clock_ahead : Z
}.

(** [dt.time()]: the time of day on the datetime's own clock *)
Definition time_of (dt : datetime) : Z :=
  (instant dt + clock_ahead dt) `mod` us_per_day.

(** [timezone.now()] at the instant [now], where the configured time
    zone is [utcoffset] ahead of UTC: a datetime in UTC, time zone support
    being on (the code compares [timezone.now()] with aware datetimes). *)
Definition now_utc (utcoffset now : Z) : datetime :=
  {| instant := now; clock_ahead := - utcoffset |}.

(** [dt + timedelta(days=n)] *)
Definition plus_days (n : Z) (dt : datetime) : datetime :=
  {| instant := instant dt + n * us_per_day; clock_ahead := clock_ahead dt |}.

End Datetime.

(** ** apps/campus/models.py *)

Module CampusModels.

Record Campus := {
  code : string;
  is_active : bool
}.

Record CampusConfiguration := {
  multi_campus_events_enabled : bool;
  cross_campus_attendance_enabled : bool;
  qr_code_expiry_hours : Z;
  attendance_window_minutes : Z;
  gps_validation_enabled : bool;
  gps_radius_meters : Z
}.

(** The field defaults of [CampusConfiguration]. *)
Definition default_configuration : CampusConfiguration :=
  {| multi_campus_events_enabled := false;
     cross_campus_attendance_enabled := false;
     qr_code_expiry_hours := 24;
     attendance_window_minutes := 30;
     gps_validation_enabled := true;
     gps_radius_meters := 100 |}.

(** The campus table, keyed by primary key. *)
Abbreviation Table := (gmap Z Campus).

(** [Campus.objects.filter(is_active=True).values_list('id', flat=True)] *)
Definition active_ids (campuses : Table) : list Z :=
  (map_to_list (filter (λ kv, is_active kv.2 = true) campuses)).*1.

(** [Campus.objects.filter(id__in=ids, is_active=True)], as primary keys. *)
Definition active_among (campuses : Table) (ids : list Z) : list Z :=
  (map_to_list
     (filter (λ kv, kv.1 ∈ ids ∧ is_active kv.2 = true) campuses)).*1.

(** [Campus.objects.get(id=pk, id__in=ids)]; [None] is [DoesNotExist].
    An id outside the range of the id column matches no row, as any id
    without a campus (the lookup of Django 4.2 and later; earlier versions
    hand such an id to the database driver). *)
Definition get_among (campuses : Table) (pk : Z) (ids : list Z) : option Z :=
  match campuses !! pk with
  | Some _ => if Py.contains pk ids then Some pk else None
  | None => None
  end.

End CampusModels.

(** ** apps/accounts/models.py *)

Module Accounts.

Inductive Role := student | organizer | campus_admin | super_admin.

#[global] Instance Role_eq_dec : EqDecision Role.
Proof. solve_decision. Defined.

Record User := {
  id : Z;
  role : Role;
  campus_id : Z;
  accessible_campus_ids : list Z
}.

Definition get_accessible_campus_ids
    (campuses : CampusModels.Table) (self : User) : list Z :=
  if bool_decide (role self = super_admin)
  then CampusModels.active_ids campuses
  else if bool_decide (role self = campus_admin)
            && Py.truthy_list (accessible_campus_ids self)
  then accessible_campus_ids self
  else [campus_id self].

Definition can_access_campus
    (campuses : CampusModels.Table) (self : User) (campus_id : Z) : bool :=
  Py.contains campus_id (get_accessible_campus_ids campuses self).

End Accounts.

(** ** apps/events/models.py *)

Module Events.

Record Event := {
  id : option Uuid.UUID;
  campus_id : Z;
  date : option Z;
  start_time : option Z;
  end_time : option Z;
  is_multi_campus : bool;
  allowed_campuses : list Z;
  max_participants : option Z;
  qr_code : option string;
  qr_code_data : string;
  attendance_window_start : option Z;
  attendance_window_end : option Z
}.

Definition with_id (v : option Uuid.UUID) (e : Event) : Event :=
  {| id := v; campus_id := campus_id e; date := date e;
     start_time := start_time e; end_time := end_time e;
     is_multi_campus := is_multi_campus e;
     allowed_campuses := allowed_campuses e;
     max_participants := max_participants e;
     qr_code := qr_code e; qr_code_data := qr_code_data e;
     attendance_window_start := attendance_window_start e;
     attendance_window_end := attendance_window_end e |}.

Definition with_qr (file : option string) (data : string) (e : Event) : Event :=
  {| id := id e; campus_id := campus_id e; date := date e;
     start_time := start_time e; end_time := end_time e;
     is_multi_campus := is_multi_campus e;
     allowed_campuses := allowed_campuses e;
     max_participants := max_participants e;
     qr_code := file; qr_code_data := data;
     attendance_window_start := attendance_window_start e;
     attendance_window_end := attendance_window_end e |}.

Definition with_window (ws we : option Z) (e : Event) : Event :=
  {| id := id e; campus_id := campus_id e; date := date e;
     start_time := start_time e; end_time := end_time e;
     is_multi_campus := is_multi_campus e;
     allowed_campuses := allowed_campuses e;
     max_participants := max_participants e;
     qr_code := qr_code e; qr_code_data := qr_code_data e;
     attendance_window_start := ws;
     attendance_window_end := we |}.

(** The event table, keyed by primary key. *)
Abbreviation Table := (gmap Uuid.UUID Event).

(** [bool(self.qr_code)]: a file field is truthy when it has a name. *)
Definition has_qr_code (self : Event) : bool :=
  match qr_code self with
  | Some name => Py.truthy_str name
  | None => false
  end.

Definition qr_url_prefix : string := "https://easuniversity.site/attend/".

(** [Event.generate_qr_code].  The image itself is produced by the
    [qrcode] package; the file field records the name the file is saved
    under in the [qr_codes/] upload directory (the storage may pick
    another, equally non-empty, name when that one is taken).  The last
    statement of the method writes the two fields to the stored row. *)
Definition generate_qr_code (db : Table) (self : Event) : Table * Event :=
  match id self with
  | None => (db, self)
  | Some u =>
      let qr_data := qr_url_prefix +:+ Uuid.str u in
      let filename := "qr_event_" +:+ Uuid.str u +:+ ".png" in
      let self' := with_qr (Some ("qr_codes/" +:+ filename)) qr_data self in
      (alter (with_qr (qr_code self') (qr_code_data self')) u db, self')
  end.

(** The attendance-window part of [Event.save].  Dates, times and
    datetimes are always truthy, so each of the three tests asks whether the
    field is set. *)
Definition auto_window (self : Event) : Event :=
  match attendance_window_start self, date self, start_time self with
  | None, Some d, Some t =>
      let event_datetime := Datetime.make_aware (Datetime.combine d t) in
      with_window
        (Some (event_datetime - Datetime.timedelta_minutes 30))
        (Some (event_datetime + Datetime.timedelta_minutes 30))
        self
  | _, _, _ => self
  end.

(** [models.Model.save]: the primary key defaults to [default], the
    [uuid.uuid4()] drawn for this object, and the row is written.  The
    columns [date], [start_time] and [end_time] are NOT NULL: the database
    refuses the row of an event that lacks one of them ([IntegrityError]),
    a case this definition leaves out; it is the write of an event whose
    schedule is set. *)
Definition super_save (default : Uuid.UUID) (db : Table) (self : Event)
    : Table * Event :=
  let pk := match id self with Some u => u | None => default end in
  let self' := with_id (Some pk) self in
  (<[pk := self']> db, self').

(** [Event.save] *)
Definition save (default : Uuid.UUID) (db : Table) (self : Event)
    : Table * Event :=
  let '(db1, self1) := super_save default db (auto_window self) in
  if negb (has_qr_code self1) then generate_qr_code db1 self1
  else (db1, self1).

(** [Event.can_mark_attendance], at the instant [now] *)
Definition can_mark_attendance (now : Z) (self : Event) : bool :=
  match attendance_window_start self, attendance_window_end self with
  | Some ws, Some we => (ws <=? now) && (now <=? we)
  | _, _ => false
  end.

End Events.

(** ** apps/attendance/models.py *)

Module AttendanceModels.

Inductive Status := present | absent | late | excused.

#[global] Instance Status_eq_dec : EqDecision Status.
Proof. solve_decision. Defined.

(** An [Attendance] object.  [event] and [user] are the related objects
    the instance holds.  The stored row keeps their primary keys only: in
    the table below a row stands with the actor and the event its instance
    held at its last save, which is what [save] read; the user and event
    tables change on their own (module [Related]). *)
Record Attendance := {
  pk : option Z;
  campus_id : option Z;
  event : Events.Event;
  user : Accounts.User;
  status : Status;
  cross_campus_attendance : bool;
  marked_at : option Datetime.datetime;
  arrival_time : option Z
}.

Definition with_pk (v : option Z) (a : Attendance) : Attendance :=
  {| pk := v; campus_id := campus_id a; event := event a; user := user a;
     status := status a;
     cross_campus_attendance := cross_campus_attendance a;
     marked_at := marked_at a; arrival_time := arrival_time a |}.

Definition with_campus_id (v : option Z) (a : Attendance) : Attendance :=
  {| pk := pk a; campus_id := v; event := event a; user := user a;
     status := status a;
     cross_campus_attendance := cross_campus_attendance a;
     marked_at := marked_at a; arrival_time := arrival_time a |}.

Definition with_cross_campus (v : bool) (a : Attendance) : Attendance :=
  {| pk := pk a; campus_id := campus_id a; event := event a; user := user a;
     status := status a; cross_campus_attendance := v;
     marked_at := marked_at a; arrival_time := arrival_time a |}.

Definition with_arrival_time (v : option Z) (a : Attendance) : Attendance :=
  {| pk := pk a; campus_id := campus_id a; event := event a; user := user a;
     status := status a;
     cross_campus_attendance := cross_campus_attendance a;
     marked_at := marked_at a; arrival_time := v |}.

Definition with_status (v : Status) (a : Attendance) : Attendance :=
  {| pk := pk a; campus_id := campus_id a; event := event a; user := user a;
     status := v;
     cross_campus_attendance := cross_campus_attendance a;
     marked_at := marked_at a; arrival_time := arrival_time a |}.

(** The attendance table, keyed by primary key. *)
Abbreviation Table := (gmap Z Attendance).

(** The columns of [unique_together = ['event', 'user']]. *)
Definition unique_key (a : Attendance) : option Uuid.UUID * Z :=
  (Events.id (event a), Accounts.id (user a)).

Inductive SaveError :=
| ValueError      (* the related event has not been saved *)
| IntegrityError. (* the unique constraint is violated *)

(** Some row other than the one at [pk self] has the key of [self]. *)
Definition violates_unique_together (db : Table) (self : Attendance) : bool :=
  bool_decide
    (map_Exists
       (λ k row, Some k ≠ pk self ∧ unique_key row = unique_key self) db).

(** [models.Model.save] under the table's constraints: an object
    without primary key is inserted under a new one, an object with a
    primary key replaces the row stored under it. *)
Definition super_save (db : Table) (self : Attendance)
    : SaveError + Table * Attendance :=
  match Events.id (event self) with
  | None => inl ValueError
  | Some _ =>
      if violates_unique_together db self then inl IntegrityError
      else
        let k := match pk self with
                 | Some k => k
                 | None => fresh (dom db)
                 end in
        let self' := with_pk (Some k) self in
        inr (<[k := self']> db, self')
  end.

(** The field updates of [Attendance.save] that precede the write. *)
Definition pre_save (self : Attendance) : Attendance :=
  let self1 :=
    if negb (Py.truthy_int (campus_id self))
    then with_campus_id (Some (Events.campus_id (event self))) self
    else self in
  let self2 :=
    with_cross_campus
      (bool_decide
         (Accounts.campus_id (user self1) ≠ Events.campus_id (event self1)))
      self1 in
  match arrival_time self2, marked_at self2 with
  | None, Some m => with_arrival_time (Some (Datetime.time_of m)) self2
  | _, _ => self2
  end.

(** [Attendance.save] *)
Definition save (db : Table) (self : Attendance)
    : SaveError + Table * Attendance :=
  super_save db (pre_save self).

(** How the table changes: a successful [save], the deletion of a row,
    or an update of the status column of a row. *)
Inductive step : Table → Table → Prop :=
| step_save db self db' self' :
    save db self = inr (db', self') → step db db'
| step_delete db k :
    step db (delete k db)
| step_status db k s :
    step db (alter (with_status s) k db).

Definition reachable (db : Table) : Prop := rtc step ∅ db.

End AttendanceModels.

(** ** The rows a stored record points to

  The actor and the event of a stored record, read afresh through the
  foreign keys of the row, as [record.user] and [record.event] are on an
  instance loaded from the table. *)

Module Related.

Import AttendanceModels.

(** The user table, keyed by primary key. *)
Abbreviation Users := (gmap Z Accounts.User).

(** [models.Model.save] of a user that has a primary key: the row stored
    under the key is replaced.  Every column of the user, the campus among
    them, is writable. *)
Definition save_user (users : Users) (u : Accounts.User) : Users :=
  <[Accounts.id u := u]> users.

Definition actor_of (users : Users) (r : Attendance) : option Accounts.User :=
  users !! Accounts.id (user r).

Definition event_of (events : Events.Table) (r : Attendance)
    : option Events.Event :=
  Events.id (event r) ≫= λ u, events !! u.

(** The instance holds its actor and its event as the tables have them. *)
Definition up_to_date
    (users : Users) (events : Events.Table) (a : Attendance) : Prop :=
  actor_of users a = Some (user a) ∧ event_of events a = Some (event a).

End Related.

(** ** The methods of [Event] that go through [self.attendance_records] *)

Module EventAttendance.

Import AttendanceModels.

(** [self.attendance_records]: the rows whose event is [self] *)
Definition attendance_records (db : Table) (self : Events.Event) : Table :=
  filter (λ kv, Events.id (event kv.2) = Events.id self) db.

(** [Event.attendance_count] *)
Definition attendance_count (db : Table) (self : Events.Event) : Z :=
  Z.of_nat
    (size (filter (λ kv, status kv.2 = present) (attendance_records db self))).

(** [self.attendance_records.filter(user=user).exists()] *)
Definition already_attended
    (db : Table) (self : Events.Event) (user : Accounts.User) : bool :=
  bool_decide
    (map_Exists
       (λ _ row, Accounts.id (AttendanceModels.user row) = Accounts.id user)
       (attendance_records db self)).

(** The condition of the capacity check:
    [self.max_participants and self.attendance_count >= self.max_participants] *)
Definition at_capacity (db : Table) (self : Events.Event) : bool :=
  Py.truthy_int (Events.max_participants self)
  && from_option (λ m, attendance_count db self >=? m) false
       (Events.max_participants self).

Definition msg_campus : string := "Event not available for your campus".
Definition msg_capacity : string := "Event is at capacity".
Definition msg_duplicate : string := "Already marked attendance for this event".
Definition msg_window : string := "Attendance window is closed".
Definition msg_ok : string := "Can attend".

(** [Event.can_user_attend], at the instant [now] *)
Definition can_user_attend
    (db : Table) (now : Z) (self : Events.Event) (user : Accounts.User)
    : bool * string :=
  if negb (Events.is_multi_campus self)
     && bool_decide (Accounts.campus_id user ≠ Events.campus_id self)
  then (false, msg_campus)
  else if Events.is_multi_campus self
          && negb (Py.contains (Accounts.campus_id user)
                     (Events.allowed_campuses self))
  then (false, msg_campus)
  else if at_capacity db self
  then (false, msg_capacity)
  else if already_attended db self user
  then (false, msg_duplicate)
  else if negb (Events.can_mark_attendance now self)
  then (false, msg_window)
  else (true, msg_ok).

End EventAttendance.

(** ** apps/campus/managers.py *)

Module Managers.

(** A model with a [campus] foreign key. *)
Class CampusAware (A : Type) := campus_id_of : A → Z.

#[global] Instance User_campus_aware : CampusAware Accounts.User :=
  Accounts.campus_id.
#[global] Instance Event_campus_aware : CampusAware Events.Event :=
  Events.campus_id.

Section CampusAwareQuerySet.
Context {A : Type} `{!CampusAware A}.

(** A query set is the list of the rows it selects. *)
Definition for_campus (self : list A) (campus_id : Z) : list A :=
  filter (λ row, campus_id_of row = campus_id) self.

Definition for_user_campus (self : list A) (user : Accounts.User) : list A :=
  if bool_decide (Accounts.role user = Accounts.super_admin) then self
  else for_campus self (Accounts.campus_id user).

Definition accessible_to_user
    (campuses : CampusModels.Table)
    (self : list A) (user : Accounts.User) (campus_id : option Z) : list A :=
  if bool_decide (Accounts.role user = Accounts.super_admin) then
    match campus_id with
    | Some c => if Py.truthy_int (Some c) then for_campus self c else self
    | None => self
    end
  else
    let accessible_campuses :=
      Accounts.get_accessible_campus_ids campuses user in
    match campus_id with
    | Some c =>
        if Py.truthy_int (Some c) && Py.contains c accessible_campuses
        then for_campus self c
        else for_campus self (Accounts.campus_id user)
    | None => for_campus self (Accounts.campus_id user)
    end.

End CampusAwareQuerySet.

End Managers.

(** ** apps/shared/middleware.py *)

Module Middleware.

(** What [process_request] reads from the request: the authenticated
    user, if any, and the [X-Campus-ID] header, if sent. *)
Record Request := {
  user : option Accounts.User;
  HTTP_X_CAMPUS_ID : option string
}.

(** What [process_request] attaches to the request; campuses stand as
    their primary keys. *)
Record CampusContext := {
  campus : option Z;
  accessible_campuses : list Z
}.

(** The override block: the campus it assigns to [request.campus], or
    [None] when it assigns nothing (the condition is false, or one of
    [ValueError] and [Campus.DoesNotExist] is caught). *)
Definition campus_override
    (campuses : CampusModels.Table) (u : Accounts.User)
    (header : option string) : option Z :=
  match header with
  | Some campus_override =>
      if Py.truthy_str campus_override
         && bool_decide (Accounts.role u
                           ∈ [Accounts.campus_admin; Accounts.super_admin])
      then
        match Py.int campus_override with
        | Some pk =>
            CampusModels.get_among campuses pk
              (Accounts.get_accessible_campus_ids campuses u)
        | None => None
        end
      else None
  | None => None
  end.

Definition process_request
    (campuses : CampusModels.Table) (request : Request) : CampusContext :=
  match user request with
  | None => {| campus := None; accessible_campuses := [] |}
  | Some u =>
      let accessible_ids := Accounts.get_accessible_campus_ids campuses u in
      {| campus :=
           match campus_override campuses u (HTTP_X_CAMPUS_ID request) with
           | Some override_campus => Some override_campus
           | None => Some (Accounts.campus_id u)
           end;
         accessible_campuses :=
           CampusModels.active_among campuses accessible_ids |}
  end.

End Middleware.

(** ** Sample data

  Campus SNSU (id 1) with two further campuses, some users and events,
  used to run the definitions above. *)

Module Samples.

Definition campuses : CampusModels.Table :=
  <[1 := {| CampusModels.code := "SNSU"; CampusModels.is_active := true |}]>
  (<[2 := {| CampusModels.code := "MALIMONO"; CampusModels.is_active := true |}]>
  (<[3 := {| CampusModels.code := "DELCARMEN"; CampusModels.is_active := false |}]>
   ∅)).

Definition actor_a : Accounts.User :=
  {| Accounts.id := 10; Accounts.role := Accounts.student;
     Accounts.campus_id := 1; Accounts.accessible_campus_ids := [] |}.

Definition actor_b : Accounts.User :=
  {| Accounts.id := 11; Accounts.role := Accounts.student;
     Accounts.campus_id := 1; Accounts.accessible_campus_ids := [] |}.

Definition visitor : Accounts.User :=
  {| Accounts.id := 12; Accounts.role := Accounts.student;
     Accounts.campus_id := 2; Accounts.accessible_campus_ids := [1; 2] |}.

Definition event_uuid : Uuid.UUID := {| Uuid.int := 1311768467463790320 |}.

(** An event of campus 1, window [100, 200], with the given capacity. *)
Definition event_with_capacity (capacity : option Z) : Events.Event :=
  {| Events.id := Some event_uuid; Events.campus_id := 1;
     Events.date := Some 739000; Events.start_time := Some 36000000000;
     Events.end_time := Some 43200000000;
     Events.is_multi_campus := false; Events.allowed_campuses := [];
     Events.max_participants := capacity;
     Events.qr_code := Some "qr_codes/qr_event.png";
     Events.qr_code_data := "https://easuniversity.site/attend/x";
     Events.attendance_window_start := Some 100;
     Events.attendance_window_end := Some 200 |}.

(** The record a successful submission of [u] for [e] creates. *)
Definition submission (e : Events.Event) (u : Accounts.User)
    : AttendanceModels.Attendance :=
  {| AttendanceModels.pk := None; AttendanceModels.campus_id := None;
     AttendanceModels.event := e; AttendanceModels.user := u;
     AttendanceModels.status := AttendanceModels.present;
     AttendanceModels.cross_campus_attendance := false;
     AttendanceModels.marked_at :=
       Some {| Datetime.instant := 150; Datetime.clock_ahead := 0 |};
     AttendanceModels.arrival_time := None |}.

(** An event before its first save: on day 739000 from 10:00 to 12:00,
    with no window, no primary key and no QR image. *)
Definition new_event : Events.Event :=
  {| Events.id := None; Events.campus_id := 1;
     Events.date := Some 739000; Events.start_time := Some 36000000000;
     Events.end_time := Some 43200000000;
     Events.is_multi_campus := false; Events.allowed_campuses := [];
     Events.max_participants := None;
     Events.qr_code := None; Events.qr_code_data := "";
     Events.attendance_window_start := None;
     Events.attendance_window_end := None |}.

(** The same event created with an image already attached as its QR
    code. *)
Definition event_with_image : Events.Event :=
  Events.with_qr (Some "qr_codes/poster.png") "" new_event.

(** A campus configuration whose attendance window is one hour. *)
Definition hour_configuration : CampusModels.CampusConfiguration :=
  {| CampusModels.multi_campus_events_enabled := false;
     CampusModels.cross_campus_attendance_enabled := false;
     CampusModels.qr_code_expiry_hours := 24;
     CampusModels.attendance_window_minutes := 60;
     CampusModels.gps_validation_enabled := true;
     CampusModels.gps_radius_meters := 100 |}.

(** The event of capacity 1, and the event without capacity. *)
Definition small_event : Events.Event := event_with_capacity (Some 1).
Definition open_event : Events.Event := event_with_capacity None.

(** The table after [save] of [a], unchanged when [save] raises. *)
Definition after_save (db : AttendanceModels.Table)
    (a : AttendanceModels.Attendance) : AttendanceModels.Table :=
  match AttendanceModels.save db a with
  | inr (db', _) => db'
  | inl _ => db
  end.

(** Actor A has been admitted to the event of capacity 1, which is now
    full, and to the event without capacity. *)
Definition small_event_full : AttendanceModels.Table :=
  after_save ∅ (submission small_event actor_a).
Definition open_event_attended : AttendanceModels.Table :=
  after_save ∅ (submission open_event actor_a).


(** A record of the student of campus 2 forced in for the event of
    campus 1, the caller leaving the cross-campus flag off. *)
Definition visitor_attended : AttendanceModels.Table :=
  after_save ∅ (submission open_event visitor).

(** The user table with that student, the student after a move to
    campus 1, the user table after the move, and the event table with the
    event without capacity. *)
Definition users : Related.Users := Related.save_user ∅ visitor.

Definition visitor_moved : Accounts.User :=
  {| Accounts.id := 12; Accounts.role := Accounts.student;
     Accounts.campus_id := 1; Accounts.accessible_campus_ids := [1; 2] |}.

Definition users_after_move : Related.Users :=
  Related.save_user users visitor_moved.

Definition events : Events.Table := <[event_uuid := open_event]> ∅.

(** A campus administrator of campus 1 whose list names campus 2 and a
    campus 7 that does not exist. *)
Definition stale_admin : Accounts.User :=
  {| Accounts.id := 20; Accounts.role := Accounts.campus_admin;
     Accounts.campus_id := 1; Accounts.accessible_campus_ids := [2; 7] |}.

(** A campus administrator of campus 1 whose list names 0 and campus 2. *)
Definition zero_admin : Accounts.User :=
  {| Accounts.id := 21; Accounts.role := Accounts.campus_admin;
     Accounts.campus_id := 1; Accounts.accessible_campus_ids := [0; 2] |}.

Definition request (u : Accounts.User) (header : option string)
    : Middleware.Request :=
  {| Middleware.user := Some u; Middleware.HTTP_X_CAMPUS_ID := header |}.

End Samples.

(** ** The rules as the specification words them *)

Module Spec.

(** Tenant eligibility: the home campus equals the event's campus when
    the event is not multi-campus, and is on the event's allow-list when
    it is. *)
Definition tenant_eligible (e : Events.Event) (u : Accounts.User) : Prop :=
  (Events.is_multi_campus e = false
   ∧ Accounts.campus_id u = Events.campus_id e)
  ∨ (Events.is_multi_campus e = true
     ∧ Accounts.campus_id u ∈ Events.allowed_campuses e).

(** The attendance window as the specification words it: from the event's
    start minus the campus's configured window duration to the event's end
    plus that duration. *)
Definition attendance_window
    (cfg : CampusModels.CampusConfiguration) (e : Events.Event)
    : option (Z * Z) :=
  match Events.date e, Events.start_time e, Events.end_time e with
  | Some d, Some s, Some t =>
      let delta :=
        Datetime.timedelta_minutes (CampusModels.attendance_window_minutes cfg) in
      Some (Datetime.make_aware (Datetime.combine d s) - delta,
            Datetime.make_aware (Datetime.combine d t) + delta)
  | _, _, _ => None
  end.

(** The cross-campus flag: the actor's home campus is not the event's. *)
Definition cross_campus (a : AttendanceModels.Attendance) : bool :=
  bool_decide
    (Accounts.campus_id (AttendanceModels.user a)
     ≠ Events.campus_id (AttendanceModels.event a)).

(** The cross-campus flag of a stored record, from the actor and the
    event as the tables have them now. *)
Definition cross_campus_now
    (users : Related.Users) (events : Events.Table)
    (r : AttendanceModels.Attendance) : option bool :=
  u ← Related.actor_of users r;
  e ← Related.event_of events r;
  Some (bool_decide (Accounts.campus_id u ≠ Events.campus_id e)).

(** At most one attendance record per (event, actor) pair. *)
Definition one_record_per_pair (db : AttendanceModels.Table) : Prop :=
  ∀ k1 k2 r1 r2,
    db !! k1 = Some r1 → db !! k2 = Some r2 →
    AttendanceModels.unique_key r1 = AttendanceModels.unique_key r2 →
    k1 = k2.

(** The pair (event, actor) already has a record. *)
Definition has_record (db : AttendanceModels.Table)
    (e : Events.Event) (u : Accounts.User) : Prop :=
  ∃ k r, db !! k = Some r
         ∧ Events.id (AttendanceModels.event r) = Events.id e
         ∧ Accounts.id (AttendanceModels.user r) = Accounts.id u.

End Spec.

(** ** Further methods of the models, the middleware and the campus API *)

(** apps/events/models.py: [is_ongoing] and [get_attendance_for_campus] *)

Module EventQueries.

Import AttendanceModels.

(** [Event.is_ongoing], at the instant [now].  [datetime.combine] raises
    [TypeError] on a missing date or time: [None] stands for it. *)
Definition is_ongoing (now : Z) (self : Events.Event) : option bool :=
  match Events.date self, Events.start_time self, Events.end_time self with
  | Some d, Some s, Some t =>
      let event_start := Datetime.make_aware (Datetime.combine d s) in
      let event_end := Datetime.make_aware (Datetime.combine d t) in
      Some ((event_start <=? now) && (now <=? event_end))
  | _, _, _ => None
  end.

(** [Event.get_attendance_for_campus] *)
Definition get_attendance_for_campus
    (db : Table) (self : Events.Event) (campus_id : Z) : Z :=
  Z.of_nat
    (size (filter (λ kv, AttendanceModels.campus_id kv.2 = Some campus_id
                         ∧ status kv.2 = present)
             (EventAttendance.attendance_records db self))).

End EventQueries.

(** apps/attendance/models.py: [is_late] *)

Module AttendanceQueries.

Import AttendanceModels.

(** [Attendance.is_late]: times of day are always truthy, so the two
    tests ask whether the fields are set. *)
Definition is_late (self : Attendance) : bool :=
  match arrival_time self, Events.start_time (event self) with
  | Some arrival, Some start => start <? arrival
  | _, _ => false
  end.

End AttendanceQueries.

(** apps/accounts/models.py: [get_attendance_count] *)

Module AccountQueries.

Import AttendanceModels.

(** [User.get_attendance_count(campus_id=None)] *)
Definition get_attendance_count
    (db : Table) (self : Accounts.User) (campus_id : option Z) : Z :=
  let queryset :=
    filter (λ kv, Accounts.id (user kv.2) = Accounts.id self) db in
  let queryset :=
    if Py.truthy_int campus_id
    then filter (λ kv, AttendanceModels.campus_id kv.2 = campus_id) queryset
    else queryset in
  Z.of_nat (size queryset).

End AccountQueries.

(** apps/shared/middleware.py: [process_response] *)

Module Responses.

(** [str(n)] for an integer: the decimal digits, after a minus sign for a
    negative number. *)
Definition str_int (n : Z) : string := pretty n.

(** A character [str_int] writes for a decimal digit. *)
Definition decimal_digit (c : ascii) : Prop :=
  ∃ d, (d < 10)%N ∧ c = pretty_N_char d.

(** The headers of a response.  Django keeps them under the lower-cased
    name, with the name as it was last written and the value, so that names
    are read and written without regard to case.  Header names are ASCII;
    a value of code points below 256 is kept as it is. *)
Abbreviation Headers := (gmap string (string * string)).

Definition lower_char (c : ascii) : ascii :=
  let n := nat_of_ascii c in
  if (65 <=? n)%nat && (n <=? 90)%nat then ascii_of_nat (n + 32) else c.

(** [name.lower()] *)
Fixpoint lower (name : string) : string :=
  match name with
  | EmptyString => EmptyString
  | String c rest => String (lower_char c) (lower rest)
  end.

(** A line feed or a carriage return. *)
Definition is_line_break (c : ascii) : bool :=
  Ascii.eqb c "010"%char || Ascii.eqb c "013"%char.

(** ['\n' in s or '\r' in s] *)
Definition has_line_break (s : string) : bool :=
  existsb is_line_break (list_ascii_of_string s).

(** [response[name] = value]; a name or a value with a line break is
    refused: [None] stands for [BadHeaderError]. *)
Definition setitem (name value : string) (response : Headers)
    : option Headers :=
  if has_line_break name || has_line_break value then None
  else Some (<[lower name := (name, value)]> response).

(** [response[name]]; [None] stands for [KeyError]. *)
Definition getitem (name : string) (response : Headers) : option string :=
  snd <$> response !! lower name.

(** [CampusContextMiddleware.process_response].  [campus] is
    [request.campus], a campus with its primary key, and [response] the
    headers of the response. *)
Definition process_response
    (campus : option (Z * CampusModels.Campus)) (response : Headers)
    : option Headers :=
  match campus with
  | Some (pk, c) =>
      response ← setitem "X-Campus-ID" (str_int pk) response;
      setitem "X-Campus-Code" (CampusModels.code c) response
  | None => Some response
  end.

End Responses.

(** apps/campus/api/views.py: [CampusViewSet.get_queryset] *)

Module CampusViews.

(** [CampusViewSet.get_queryset], as the primary keys of the campuses
    selected. *)
Definition get_queryset
    (campuses : CampusModels.Table) (user : Accounts.User) : list Z :=
  if bool_decide (Accounts.role user = Accounts.super_admin)
  then (map_to_list campuses).*1
  else
    let accessible_campus_ids :=
      Accounts.get_accessible_campus_ids campuses user in
    (map_to_list (filter (λ kv, kv.1 ∈ accessible_campus_ids) campuses)).*1.

End CampusViews.

(** Further sample data *)

Module FurtherSamples.

(** An event with its schedule set, created with a window start but no
    window end. *)
Definition event_without_window_end : Events.Event :=
  Events.with_window (Some 100) None Samples.new_event.

(** A record for the event without capacity, which starts at 10:00 of day
    739000, marked one microsecond after the start.  The first carries a
    datetime in the configured time zone; the second the default of
    [marked_at], [timezone.now()], where the configured time zone is eight
    hours ahead of UTC. *)
Definition marked_submission (m : Datetime.datetime)
    : AttendanceModels.Attendance :=
  {| AttendanceModels.pk := None; AttendanceModels.campus_id := None;
     AttendanceModels.event := Samples.open_event;
     AttendanceModels.user := Samples.actor_a;
     AttendanceModels.status := AttendanceModels.present;
     AttendanceModels.cross_campus_attendance := false;
     AttendanceModels.marked_at := Some m;
     AttendanceModels.arrival_time := None |}.

Definition late_submission : AttendanceModels.Attendance :=
  marked_submission
    {| Datetime.instant := Datetime.combine 739000 36000000001;
       Datetime.clock_ahead := 0 |}.

Definition default_submission : AttendanceModels.Attendance :=
  marked_submission
    (Datetime.now_utc (8 * 60 * Datetime.us_per_minute)
       (Datetime.combine 739000 36000000001)).

(** A super administrator whose home campus 3 is inactive. *)
Definition root_admin : Accounts.User :=
  {| Accounts.id := 30; Accounts.role := Accounts.super_admin;
     Accounts.campus_id := 3; Accounts.accessible_campus_ids := [] |}.

End FurtherSamples.

(** * Properties *)

(** ** Time window (apps/events/models.py, [can_mark_attendance]) *)

Section TimeWindow.
Import Events.

Lemma can_mark_attendance_spec (e : Event) (now ws we : Z) :
  attendance_window_start e = Some ws →
  attendance_window_end e = Some we →
  can_mark_attendance now e = true ↔ ws ≤ now ≤ we.
Proof.
  intros Hs He. unfold can_mark_attendance. rewrite Hs, He.
  rewrite andb_true_iff, !Z.leb_le. reflexivity.
Qed.

Lemma can_mark_attendance_outside (e : Event) (now ws we : Z) :
  attendance_window_start e = Some ws →
  attendance_window_end e = Some we →
  now < ws ∨ we < now →
  can_mark_attendance now e = false.
Proof.
  intros Hs He Hout. apply not_true_is_false.
  rewrite (can_mark_attendance_spec e now ws we Hs He). lia.
Qed.

(** C6.  The time-window check holds exactly when
    [window_start <= now <= window_end]: with both bounds present it is
    true at [window_start] and at [window_end] of a non-empty window and
    false one microsecond before the start and one after the end; with
    either bound absent it is false. *)
Theorem time_window_inclusive (e : Event) (now : Z) :
  (∀ ws we,
      attendance_window_start e = Some ws →
      attendance_window_end e = Some we →
      (can_mark_attendance now e = true ↔ ws ≤ now ≤ we)
      ∧ (ws ≤ we →
         can_mark_attendance ws e = true ∧ can_mark_attendance we e = true)
      ∧ can_mark_attendance (ws - 1) e = false
      ∧ can_mark_attendance (we + 1) e = false)
  ∧ (attendance_window_start e = None ∨ attendance_window_end e = None →
     can_mark_attendance now e = false).
Proof.
  split.
  - intros ws we Hs He. split; [| split; [| split]].
    + apply (can_mark_attendance_spec e now ws we Hs He).
    + intros Hne. split.
      * apply (can_mark_attendance_spec e ws ws we Hs He). lia.
      * apply (can_mark_attendance_spec e we ws we Hs He). lia.
    + apply (can_mark_attendance_outside e _ ws we Hs He). lia.
    + apply (can_mark_attendance_outside e _ ws we Hs He). lia.
  - unfold can_mark_attendance. intros [-> | ->]; [done |].
    by destruct (attendance_window_start e).
Qed.

(** The sample event has the window [100, 200]: the check is true at 100
    and at 200, false at 99 and at 201. *)
Lemma time_window_inclusive_witness :
  let e := Samples.event_with_capacity None in
  (can_mark_attendance 100 e = true ∧ can_mark_attendance 200 e = true)
  ∧ can_mark_attendance 99 e = false
  ∧ can_mark_attendance 201 e = false.
Proof.
  intros e.
  destruct (time_window_inclusive e 150) as [Hin _].
  destruct (Hin 100 200 eq_refl eq_refl) as (_ & Hb & Hlo & Hhi).
  split; [apply Hb; lia | split; [exact Hlo | exact Hhi]].
Defined.

End TimeWindow.

(** ** Admission gates (apps/events/models.py, [can_user_attend]) *)

Section Gates.
Import AttendanceModels EventAttendance.

Lemma contains_true (x : Z) (l : list Z) : Py.contains x l = true ↔ x ∈ l.
Proof. unfold Py.contains. apply bool_decide_eq_true. Qed.

Lemma contains_false (x : Z) (l : list Z) : Py.contains x l = false ↔ x ∉ l.
Proof. unfold Py.contains. apply bool_decide_eq_false. Qed.

(** The first two branches of [can_user_attend] are taken exactly when
    the actor is not eligible for the event's campus. *)
Lemma campus_gate_fails_iff db now (e : Events.Event) (u : Accounts.User) :
  can_user_attend db now e u = (false, msg_campus) ↔ ¬ Spec.tenant_eligible e u.
Proof.
  unfold can_user_attend, Spec.tenant_eligible.
  destruct (Events.is_multi_campus e); simpl.
  - destruct (Py.contains _ _) eqn:Hin; simpl.
    + apply contains_true in Hin. split.
      * repeat case_match; discriminate.
      * intros Hne. exfalso. apply Hne. by right.
    + apply contains_false in Hin. split; [| done].
      intros _ [[? _] | [_ ?]]; [discriminate | done].
  - case_bool_decide as Hc; simpl.
    + split; [| done]. intros _ [[_ ?] | [? _]]; [done | discriminate].
    + split.
      * repeat case_match; discriminate.
      * intros Hne. exfalso. apply Hne. left. split; [done |].
        by destruct (decide (Accounts.campus_id u = Events.campus_id e)).
Qed.

(** Any other outcome means that the actor is eligible. *)
Lemma campus_gate_passes db now (e : Events.Event) (u : Accounts.User) :
  can_user_attend db now e u ≠ (false, msg_campus) → Spec.tenant_eligible e u.
Proof.
  rewrite campus_gate_fails_iff. unfold Spec.tenant_eligible. intros Hnn.
  destruct (Events.is_multi_campus e).
  - destruct (decide (Accounts.campus_id u ∈ Events.allowed_campuses e));
      [by right |].
    exfalso. apply Hnn. intros [[? _] | [_ ?]]; [discriminate | done].
  - destruct (decide (Accounts.campus_id u = Events.campus_id e));
      [by left |].
    exfalso. apply Hnn. intros [[_ ?] | [? _]]; [done | discriminate].
Qed.

(** C4.  The campus gate of [can_user_attend] lets a submission through
    exactly when the actor's home campus equals the campus of an event
    that is not multi-campus, or is on the allow-list of one that is; an
    actor whose home campus differs from the campus of an event that is not
    multi-campus always gets the campus-eligibility failure, whatever the
    attendance table, the time, the capacity and the window are. *)
Theorem tenant_gate db now (e : Events.Event) (u : Accounts.User) :
  (can_user_attend db now e u ≠ (false, msg_campus) ↔ Spec.tenant_eligible e u)
  ∧ (Events.is_multi_campus e = false →
     Accounts.campus_id u ≠ Events.campus_id e →
     can_user_attend db now e u = (false, msg_campus)).
Proof.
  split.
  - rewrite campus_gate_fails_iff. split.
    + intros Hnn. unfold Spec.tenant_eligible in *.
      destruct (Events.is_multi_campus e).
      * destruct (decide (Accounts.campus_id u ∈ Events.allowed_campuses e));
          [by right |].
        exfalso. apply Hnn. intros [[? _] | [_ ?]]; [discriminate | done].
      * destruct (decide (Accounts.campus_id u = Events.campus_id e));
          [by left |].
        exfalso. apply Hnn. intros [[_ ?] | [? _]]; [done | discriminate].
    + intros He Hne. by apply Hne.
  - intros Hm Hne. apply campus_gate_fails_iff.
    intros [[_ ?] | [? _]]; [done | congruence].
Qed.

(** A student of campus 2 submitting for the sample event of campus 1,
    inside the window and with room left, is refused for the campus. *)
Lemma tenant_gate_witness :
  can_user_attend ∅ 150 (Samples.event_with_capacity None) Samples.visitor
  = (false, msg_campus).
Proof.
  apply (proj2 (tenant_gate ∅ 150 (Samples.event_with_capacity None)
                  Samples.visitor)).
  - reflexivity.
  - simpl. lia.
Defined.

End Gates.

(** ** Capacity (apps/events/models.py, [can_user_attend], [attendance_count]) *)

Section Capacity.
Import AttendanceModels EventAttendance.

(** Past the campus gate, [can_user_attend] is its last three checks. *)
Lemma can_user_attend_eligible db now (e : Events.Event) (u : Accounts.User) :
  Spec.tenant_eligible e u →
  can_user_attend db now e u =
    if at_capacity db e then (false, msg_capacity)
    else if already_attended db e u then (false, msg_duplicate)
    else if negb (Events.can_mark_attendance now e) then (false, msg_window)
    else (true, msg_ok).
Proof.
  intros [[Hm Hc] | [Hm Hin]]; unfold can_user_attend; rewrite Hm; simpl.
  - rewrite bool_decide_eq_false_2; [done | by intros ?].
  - apply contains_true in Hin. by rewrite Hin.
Qed.

Lemma at_capacity_nonzero db (e : Events.Event) (m : Z) :
  Events.max_participants e = Some m → m ≠ 0 →
  at_capacity db e = true ↔ m ≤ attendance_count db e.
Proof.
  intros Hmax Hm. unfold at_capacity. rewrite Hmax. simpl.
  destruct (Z.eqb_spec m 0) as [? | _]; [done |]. simpl.
  rewrite Z.geb_le. reflexivity.
Qed.

(** With a capacity other than zero the capacity gate lets an eligible
    actor through exactly when fewer rows of the event have status
    [present] than the capacity. *)
Lemma capacity_gate_nonzero db now (e : Events.Event) (u : Accounts.User) m :
  Spec.tenant_eligible e u →
  Events.max_participants e = Some m → m ≠ 0 →
  can_user_attend db now e u = (false, msg_capacity)
  ↔ ¬ (attendance_count db e < m).
Proof.
  intros He Hmax Hm. rewrite (can_user_attend_eligible _ _ _ _ He).
  pose proof (at_capacity_nonzero db e m Hmax Hm) as Hcap.
  destruct (at_capacity db e).
  - split; [| done]. intros _. apply Z.le_ngt. by apply Hcap.
  - split.
    + repeat case_match; discriminate.
    + intros Hge. apply Z.le_ngt in Hge. apply Hcap in Hge. discriminate.
Qed.

(** The scenario of capacity 1: with no record yet actor A is admitted and
    the count becomes 1; actor B is then refused for capacity. *)
Example capacity_one_scenario :
  let e := Samples.event_with_capacity (Some 1) in
  let db := Samples.after_save ∅ (Samples.submission e Samples.actor_a) in
  can_user_attend ∅ 150 e Samples.actor_a = (true, msg_ok)
  ∧ attendance_count db e = 1
  ∧ can_user_attend db 150 e Samples.actor_b = (false, msg_capacity).
Proof. vm_compute. done. Qed.

(** C7, at capacity zero.  The event has [max_participants = 0] and no
    attendance row: zero rows are not fewer than zero, yet the capacity
    check is skipped and the actor is admitted. *)
Theorem capacity_zero_admits :
  let e := Samples.event_with_capacity (Some 0) in
  Events.max_participants e = Some 0
  ∧ attendance_count ∅ e = 0
  ∧ at_capacity ∅ e = false
  ∧ can_user_attend ∅ 150 e Samples.actor_a = (true, msg_ok).
Proof. vm_compute. done. Qed.

End Capacity.

(** ** Duplicates (apps/attendance/models.py, [unique_together];
       apps/events/models.py, [can_user_attend]) *)

Section Duplicates.
Import AttendanceModels EventAttendance.

Lemma already_attended_iff db (e : Events.Event) (u : Accounts.User) :
  already_attended db e u = true ↔ Spec.has_record db e u.
Proof.
  unfold already_attended, Spec.has_record, attendance_records.
  rewrite bool_decide_eq_true. unfold map_Exists. split.
  - intros (k & r & Hl & Hu). apply map_lookup_filter_Some in Hl as [Hl He].
    by exists k, r.
  - intros (k & r & Hl & He & Hu). exists k, r. split; [| done].
    by apply map_lookup_filter_Some.
Qed.

Lemma unique_key_pre_save (a : Attendance) :
  unique_key (pre_save a) = unique_key a ∧ pk (pre_save a) = pk a.
Proof. unfold pre_save. by repeat case_match. Qed.

Lemma violates_false db (a : Attendance) :
  violates_unique_together db a = false →
  ∀ k r, db !! k = Some r → unique_key r = unique_key a → Some k = pk a.
Proof.
  unfold violates_unique_together. rewrite bool_decide_eq_false.
  intros Hno k r Hl Hkey.
  destruct (decide (Some k = pk a)) as [| Hne]; [done |].
  exfalso. apply Hno. by exists k, r.
Qed.


(** What a successful [super_save] writes. *)
Lemma super_save_inr db (a : Attendance) db' a' :
  super_save db a = inr (db', a') →
  ∃ k, db' = <[k := a']> db ∧ a' = with_pk (Some k) a
       ∧ (pk a = Some k ∨ pk a = None ∧ db !! k = None)
       ∧ violates_unique_together db a = false.
Proof.
  unfold super_save. destruct (Events.id (event a)); [| done].
  destruct (violates_unique_together db a) eqn:Hv; [done |].
  intros [= <- <-]. destruct (pk a) as [k |] eqn:Hpk.
  - exists k. eauto.
  - exists (fresh (dom db)). repeat split; try done.
    right. split; [done |]. apply not_elem_of_dom, is_fresh.
Qed.

Lemma save_preserves_unique db (a : Attendance) db' a' :
  Spec.one_record_per_pair db → save db a = inr (db', a') →
  Spec.one_record_per_pair db'.
Proof.
  intros Hinv Hsave. unfold save in Hsave.
  apply super_save_inr in Hsave as (k & -> & -> & Hpk & Hv).
  pose proof (violates_false _ _ Hv) as Hfree.
  intros k1 k2 r1 r2 H1 H2 Hkey.
  destruct (decide (k1 = k)) as [-> | Hk1], (decide (k2 = k)) as [-> | Hk2];
    [done | | |].
  - rewrite lookup_insert_eq in H1. rewrite lookup_insert_ne in H2 by done.
    injection H1 as <-. symmetry in Hkey.
    specialize (Hfree k2 r2 H2 Hkey).
    destruct Hpk as [Hpk | [Hpk _]]; congruence.
  - rewrite lookup_insert_ne in H1 by done. rewrite lookup_insert_eq in H2.
    injection H2 as <-.
    specialize (Hfree k1 r1 H1 Hkey).
    destruct Hpk as [Hpk | [Hpk _]]; congruence.
  - rewrite lookup_insert_ne in H1, H2 by done. by eapply Hinv.
Qed.

Lemma step_preserves_unique db db' :
  step db db' → Spec.one_record_per_pair db → Spec.one_record_per_pair db'.
Proof.
  intros Hstep Hinv. destruct Hstep as [db a db' a' Hsave | db k | db k s].
  - by eapply save_preserves_unique.
  - intros k1 k2 r1 r2 H1 H2.
    apply lookup_delete_Some in H1 as [_ H1].
    apply lookup_delete_Some in H2 as [_ H2]. by eapply Hinv.
  - intros k1 k2 r1 r2 H1 H2 Hkey.
    apply lookup_alter_Some in H1, H2.
    destruct H1 as [(_ & x1 & H1 & ->) | [_ H1]],
             H2 as [(_ & x2 & H2 & ->) | [_ H2]];
      by eapply Hinv.
Qed.

Lemma reachable_unique db : reachable db → Spec.one_record_per_pair db.
Proof.
  unfold reachable. revert db.
  apply (rtc_ind_r (λ db, Spec.one_record_per_pair db)).
  - intros k1 k2 r1 r2 H1. by rewrite lookup_empty in H1.
  - intros db1 db2 _ Hstep IH. by eapply step_preserves_unique.
Qed.

Lemma after_save_reachable db (a : Attendance) :
  reachable db → reachable (Samples.after_save db a).
Proof.
  intros Hr. unfold Samples.after_save.
  destruct (save db a) as [err | [db' a']] eqn:Hsave; [done |].
  eapply rtc_r; [exact Hr |]. by eapply step_save.
Qed.


(** With a record for the pair, [can_user_attend] refuses, for the
    duplicate unless one of the two earlier gates refuses first. *)
Lemma can_user_attend_duplicate db now (e : Events.Event) (u : Accounts.User) :
  Spec.has_record db e u →
  ∃ msg, can_user_attend db now e u = (false, msg)
         ∧ (msg = msg_campus ∨ msg = msg_capacity ∨ msg = msg_duplicate)
         ∧ (Spec.tenant_eligible e u → at_capacity db e = false →
            msg = msg_duplicate).
Proof.
  intros Hrec. apply already_attended_iff in Hrec.
  destruct (can_user_attend db now e u) as [ok msg] eqn:Hres.
  destruct (decide ((ok, msg) = (false, msg_campus))) as [Heq | Hne].
  - injection Heq as -> ->. exists msg_campus. split; [done |].
    split; [by left |]. intros He _. exfalso.
    by apply campus_gate_fails_iff in Hres.
  - rewrite <- Hres in Hne. apply campus_gate_passes in Hne.
    rewrite (can_user_attend_eligible _ _ _ _ Hne), Hrec in Hres.
    destruct (at_capacity db e); injection Hres as <- <-.
    + exists msg_capacity. split; [done |]. split; [by right; left | done].
    + exists msg_duplicate. split; [done |]. split; [by right; right | done].
Qed.





End Duplicates.

(** ** The text of a UUID determines it *)

Section UuidText.
Import Uuid.

Lemma hex_digit_inj (d1 d2 : N) :
  (d1 < 16)%N → (d2 < 16)%N → hex_digit d1 = hex_digit d2 → d1 = d2.
Proof.
  intros H1 H2 Heq. apply (f_equal N_of_ascii) in Heq. unfold hex_digit in Heq.
  destruct (N.ltb_spec d1 10), (N.ltb_spec d2 10);
    rewrite !N_ascii_embedding in Heq by lia; lia.
Qed.

Lemma length_hex (w : nat) (n : N) : length (hex w n) = w.
Proof.
  revert n. induction w as [| w IH]; intros n; simpl; [done |].
  rewrite length_app, IH. simpl. lia.
Qed.

Lemma hex_inj (w : nat) (n m : N) :
  hex w n = hex w m → (n `mod` 16 ^ N.of_nat w = m `mod` 16 ^ N.of_nat w)%N.
Proof.
  revert n m. induction w as [| w IH]; intros n m Heq.
  - simpl. by rewrite !N.mod_1_r.
  - simpl in Heq. apply app_inj_1 in Heq as [Hhi Hlo];
      [| by rewrite !length_hex].
    injection Hlo as Hlo.
    apply hex_digit_inj in Hlo; [| by apply N.mod_lt..].
    apply IH in Hhi.
    rewrite Nat2N.inj_succ, N.pow_succ_r'.
    rewrite !N.Div0.mod_mul_r. congruence.
Qed.

Lemma str_chars_inj (u v : UUID) :
  str_chars u = str_chars v → hex 32 (int u) = hex 32 (int v).
Proof.
  unfold str_chars.
  pose proof (length_hex 32 (int u)) as Hu.
  pose proof (length_hex 32 (int v)) as Hv.
  revert Hu Hv. generalize (hex 32 (int u)) (hex 32 (int v)).
  intros h1 h2 Hu Hv.
  do 32 (destruct h1 as [| ? h1]; [discriminate Hu |]).
  do 32 (destruct h2 as [| ? h2]; [discriminate Hv |]).
  destruct h1; [| discriminate Hu]. destruct h2; [| discriminate Hv].
  simpl. intros Heq. by simplify_eq.
Qed.

Lemma str_inj (u v : UUID) : valid u → valid v → str u = str v → u = v.
Proof.
  unfold valid, str. intros Hu Hv Heq.
  apply (f_equal list_ascii_of_string) in Heq.
  rewrite !list_ascii_of_string_of_list_ascii in Heq.
  apply str_chars_inj, hex_inj in Heq.
  change (16 ^ N.of_nat 32)%N with (2 ^ 128)%N in Heq.
  rewrite !N.mod_small in Heq by done.
  destruct u, v. simpl in *. by subst.
Qed.
End UuidText.

(** ** Saving an event (apps/events/models.py, [save], [generate_qr_code]) *)

Section EventSave.
Import Events.

Lemma with_id_same (e : Event) : with_id (id e) e = e.
Proof. by destruct e. Qed.

Lemma with_qr_same (e : Event) : with_qr (qr_code e) (qr_code_data e) e = e.
Proof. by destruct e. Qed.

Lemma auto_window_idem (e : Event) : auto_window (auto_window e) = auto_window e.
Proof.
  unfold auto_window. destruct e as [i c d st en m al mp q qd ws we]. simpl.
  by destruct ws, d, st.
Qed.

Lemma auto_window_set (e : Event) (ws : Z) :
  attendance_window_start e = Some ws → auto_window e = e.
Proof. intros Hs. unfold auto_window. by rewrite Hs. Qed.

(** [save] changes the window fields as [auto_window] does. *)
Lemma save_window default db (e : Event) :
  attendance_window_start (save default db e).2
  = attendance_window_start (auto_window e)
  ∧ attendance_window_end (save default db e).2
    = attendance_window_end (auto_window e).
Proof.
  unfold save, super_save, generate_qr_code. simpl.
  destruct (negb _); simpl; split; reflexivity.
Qed.

(** C2, as amended.  When an event with a date and a start time and no
    window start is saved, its attendance window becomes
    [event start − Δ, event start + Δ]: both bounds are the same offset from
    the event's start, the end time plays no part, and later saves keep the
    window.  The offset [save] applies is 30 minutes. *)
Theorem window_around_start default db (e : Event) (d t : Z) :
  attendance_window_start e = None →
  date e = Some d →
  start_time e = Some t →
  attendance_window_start (save default db e).2
  = Some (Datetime.make_aware (Datetime.combine d t)
          - Datetime.timedelta_minutes 30)
  ∧ attendance_window_end (save default db e).2
    = Some (Datetime.make_aware (Datetime.combine d t)
            + Datetime.timedelta_minutes 30)
  ∧ ∀ default' db',
      attendance_window_start (save default' db' (save default db e).2).2
      = attendance_window_start (save default db e).2
      ∧ attendance_window_end (save default' db' (save default db e).2).2
        = attendance_window_end (save default db e).2.
Proof.
  intros Hs Hd Ht.
  destruct (save_window default db e) as [Hws Hwe].
  assert (Ha : auto_window e
               = with_window
                   (Some (Datetime.make_aware (Datetime.combine d t)
                          - Datetime.timedelta_minutes 30))
                   (Some (Datetime.make_aware (Datetime.combine d t)
                          + Datetime.timedelta_minutes 30)) e).
  { unfold auto_window. by rewrite Hs, Hd, Ht. }
  rewrite Ha in Hws, Hwe. simpl in Hws, Hwe.
  split; [done |]. split; [done |].
  intros default' db'.
  destruct (save_window default' db' (save default db e).2) as [Hws' Hwe'].
  rewrite Hws', Hwe'. by rewrite (auto_window_set _ _ Hws).
Qed.

(** The new sample event, from 10:00 to 12:00: the window runs from 9:30
    to 10:30 of its day. *)
Lemma window_around_start_witness :
  attendance_window_start (save Samples.event_uuid ∅ Samples.new_event).2
  = Some (Datetime.combine 739000 36000000000 - Datetime.timedelta_minutes 30)
  ∧ attendance_window_end (save Samples.event_uuid ∅ Samples.new_event).2
    = Some (Datetime.combine 739000 36000000000 + Datetime.timedelta_minutes 30).
Proof.
  destruct (window_around_start Samples.event_uuid ∅ Samples.new_event
              739000 36000000000 eq_refl eq_refl eq_refl) as (Hs & He & _).
  split; [exact Hs | exact He].
Defined.

(** C2, as stated, fails on the new sample event under the default
    configuration (Δ = 30 minutes): the window should end 30 minutes after
    the event's end, and the saved window ends 30 minutes after its
    start. *)
Lemma window_end_not_after_event_end :
  Spec.attendance_window CampusModels.default_configuration Samples.new_event
  = Some (Datetime.combine 739000 36000000000 - Datetime.timedelta_minutes 30,
          Datetime.combine 739000 43200000000 + Datetime.timedelta_minutes 30)
  ∧ attendance_window_end (save Samples.event_uuid ∅ Samples.new_event).2
    = Some (Datetime.combine 739000 36000000000 + Datetime.timedelta_minutes 30)
  ∧ Datetime.combine 739000 36000000000 + Datetime.timedelta_minutes 30
    ≠ Datetime.combine 739000 43200000000 + Datetime.timedelta_minutes 30.
Proof. split; [done |]. split; [done |]. by vm_compute. Qed.

(** [save] takes no campus configuration: under a configured window of
    one hour the window of the new sample event still opens 30 minutes
    before its start. *)
Example window_start_under_hour_configuration :
  fst <$> Spec.attendance_window Samples.hour_configuration Samples.new_event
  = Some (Datetime.combine 739000 36000000000 - Datetime.timedelta_minutes 60)
  ∧ attendance_window_start (save Samples.event_uuid ∅ Samples.new_event).2
    = Some (Datetime.combine 739000 36000000000 - Datetime.timedelta_minutes 30).
Proof. split; reflexivity. Qed.

Lemma auto_window_keeps (e : Event) :
  id (auto_window e) = id e
  ∧ qr_code (auto_window e) = qr_code e
  ∧ qr_code_data (auto_window e) = qr_code_data e.
Proof.
  unfold auto_window. destruct e as [i c d st en m al mp q qd ws we]. simpl.
  by destruct ws, d, st.
Qed.

(** What [save] does to an event without QR image: the event gets its
    primary key (its own, or the default drawn for it), the payload and
    the image file, and is stored under the key. *)
Lemma save_without_qr default db (e : Event) :
  has_qr_code e = false →
  ∃ u e1,
    save default db e = (<[u := e1]> db, e1)
    ∧ u = match id e with Some u0 => u0 | None => default end
    ∧ id e1 = Some u
    ∧ qr_code_data e1 = qr_url_prefix +:+ Uuid.str u
    ∧ qr_code e1 = Some ("qr_codes/" +:+ "qr_event_" +:+ Uuid.str u +:+ ".png")
    ∧ auto_window e1 = e1.
Proof.
  intros Hq.
  set (u := match id e with Some u0 => u0 | None => default end).
  destruct (auto_window_keeps e) as (Hid & Hqc & _).
  assert (Hq' : has_qr_code (with_id (Some u) (auto_window e)) = false).
  { rewrite <- Hq. unfold has_qr_code. simpl. by rewrite Hqc. }
  exists u. eexists. split; [| split; [reflexivity |]].
  - unfold save, super_save. rewrite Hid. fold u. rewrite Hq'. simpl.
    unfold generate_qr_code. simpl. rewrite alter_insert_eq. reflexivity.
  - simpl. repeat split.
    unfold auto_window. destruct e as [i c d st en m al mp q qd ws we].
    simpl. by destruct ws, d, st.
Qed.

(** C8, as amended.  For every event saved without a QR image attached,
    [save] issues the payload: the fixed URL prefix followed by the text of
    the event's primary key.  The payload is kept on the event and on its
    stored row; saving again changes neither, running [generate_qr_code]
    again yields the same payload, and the payload determines the primary
    key. *)
Theorem token_issued_once default db (e : Event) :
  has_qr_code e = false →
  ∃ u,
    id (save default db e).2 = Some u
    ∧ qr_code_data (save default db e).2 = qr_url_prefix +:+ Uuid.str u
    ∧ (save default db e).1 !! u = Some (save default db e).2
    ∧ (∀ default',
         save default' (save default db e).1 (save default db e).2
         = save default db e)
    ∧ qr_code_data
        (generate_qr_code (save default db e).1 (save default db e).2).2
      = qr_code_data (save default db e).2
    ∧ (∀ u', Uuid.valid u → Uuid.valid u' →
         qr_url_prefix +:+ Uuid.str u' = qr_code_data (save default db e).2 →
         u' = u).
Proof.
  intros Hq.
  destruct (save_without_qr default db e Hq)
    as (u & e1 & -> & _ & Hid & Hdata & Hfile & Hauto).
  exists u. simpl. split; [done |]. split; [done |].
  split; [by rewrite lookup_insert_eq |]. split; [| split].
  - intros default'. unfold save, super_save. rewrite Hauto, Hid.
    rewrite <- Hid, with_id_same. unfold has_qr_code. rewrite Hfile.
    simpl. by rewrite insert_insert_eq.
  - unfold generate_qr_code. by rewrite Hid.
  - intros u' Hu Hu' Heq. rewrite Hdata in Heq.
    apply String.app_inj in Heq. by apply str_inj.
Qed.

(** The new sample event, saved with the key drawn for it, carries the
    URL of that key. *)
Lemma token_issued_once_witness :
  qr_code_data (save Samples.event_uuid ∅ Samples.new_event).2
  = "https://easuniversity.site/attend/00000000-0000-0000-1234-56789abcdef0".
Proof.
  destruct (token_issued_once Samples.event_uuid ∅ Samples.new_event eq_refl)
    as (u & Hid & Hdata & _).
  vm_compute in Hid. injection Hid as <-. rewrite Hdata. reflexivity.
Defined.

(** C8, as stated, fails for an event created with an image already
    attached as its QR code: [save] finds the image and issues no payload,
    so the stored payload is empty and is not the URL of the event's key. *)
Lemma image_attached_no_payload :
  has_qr_code Samples.event_with_image = true
  ∧ id (save Samples.event_uuid ∅ Samples.event_with_image).2
    = Some Samples.event_uuid
  ∧ qr_code_data (save Samples.event_uuid ∅ Samples.event_with_image).2 = ""
  ∧ "" ≠ qr_url_prefix +:+ Uuid.str Samples.event_uuid.
Proof. split; [done |]. split; [done |]. split; [done | discriminate]. Qed.

End EventSave.

(** ** The cross-campus flag (apps/attendance/models.py, [save]) *)

Section CrossCampus.
Import AttendanceModels.

Lemma pre_save_keeps (a : Attendance) :
  user (pre_save a) = user a ∧ event (pre_save a) = event a
  ∧ cross_campus_attendance (pre_save a) = Spec.cross_campus a.
Proof.
  unfold pre_save, Spec.cross_campus.
  destruct a as [p c e u s x m t]. simpl.
  destruct (negb (Py.truthy_int c)), t, m; done.
Qed.

Lemma pre_save_ignores_flag (a : Attendance) (flag : bool) :
  pre_save (with_cross_campus flag a) = pre_save a.
Proof.
  unfold pre_save. destruct a as [p c e u s x m t]. simpl.
  by destruct (negb (Py.truthy_int c)), t, m.
Qed.

(** The row a successful [save] writes carries the recomputed flag. *)
Lemma save_flag db (a : Attendance) db' a' :
  save db a = inr (db', a') →
  user a' = user a ∧ event a' = event a
  ∧ cross_campus_attendance a' = Spec.cross_campus a
  ∧ ∃ k, pk a' = Some k ∧ db' !! k = Some a'.
Proof.
  unfold save. intros Hs.
  apply super_save_inr in Hs as (k & -> & -> & _ & _).
  destruct (pre_save_keeps a) as (Hu & He & Hx). simpl.
  repeat split; try done.
  exists k. by rewrite lookup_insert_eq.
Qed.

Lemma step_preserves_flag db db' :
  step db db' →
  (∀ k r, db !! k = Some r → cross_campus_attendance r = Spec.cross_campus r) →
  ∀ k r, db' !! k = Some r → cross_campus_attendance r = Spec.cross_campus r.
Proof.
  intros Hstep Hinv. destruct Hstep as [db a db' a' Hsave | db k0 | db k0 s];
    intros k r Hl.
  - pose proof (save_flag _ _ _ _ Hsave) as (Hu & He & Hx & _).
    unfold save in Hsave.
    apply super_save_inr in Hsave as (k1 & -> & _ & _ & _).
    destruct (decide (k = k1)) as [-> | Hne].
    + rewrite lookup_insert_eq in Hl. injection Hl as <-.
      rewrite Hx. unfold Spec.cross_campus. by rewrite Hu, He.
    + rewrite lookup_insert_ne in Hl by done. by eapply Hinv.
  - apply lookup_delete_Some in Hl as [_ Hl]. by eapply Hinv.
  - apply lookup_alter_Some in Hl as [(_ & x & Hl & ->) | [_ Hl]];
      [| by eapply Hinv].
    apply Hinv in Hl. by destruct x.
Qed.

(** Right after a save of an instance that holds its actor and its event
    as the tables have them, the stored flag is the one the tables give. *)
Lemma save_flag_now users events db (a : Attendance) db' a' :
  save db a = inr (db', a') →
  Related.up_to_date users events a →
  Spec.cross_campus_now users events a' = Some (cross_campus_attendance a').
Proof.
  intros Hs [Hu He].
  destruct (save_flag _ _ _ _ Hs) as (Hu' & He' & Hx & _).
  unfold Spec.cross_campus_now, Related.actor_of, Related.event_of in *.
  rewrite Hu', He', Hu. simpl. rewrite He. simpl. by rewrite Hx.
Qed.

(** C9, as amended.  [save] recomputes the cross-campus flag from the
    actor and the event the record holds: the row a successful save writes
    carries [actor.home_campus != event.campus]; the flag the caller
    supplied plays no part in what [save] does; when the record holds its
    actor and its event as the user and event tables have them, the flag
    just written is the one these tables give; and in every reachable state
    of the attendance table every stored record carries the flag of the
    actor and the event it was last saved with. *)
Theorem cross_campus_flag_recomputed db :
  (∀ a db' a', save db a = inr (db', a') →
     user a' = user a ∧ event a' = event a
     ∧ cross_campus_attendance a' = Spec.cross_campus a
     ∧ ∃ k, pk a' = Some k ∧ db' !! k = Some a')
  ∧ (∀ a flag, save db (with_cross_campus flag a) = save db a)
  ∧ (∀ users events a db' a', save db a = inr (db', a') →
       Related.up_to_date users events a →
       Spec.cross_campus_now users events a'
       = Some (cross_campus_attendance a'))
  ∧ (reachable db →
     ∀ k r, db !! k = Some r →
            cross_campus_attendance r = Spec.cross_campus r).
Proof.
  split; [apply save_flag |]. split; [| split].
  - intros a flag. unfold save. by rewrite pre_save_ignores_flag.
  - intros users events a db' a'. apply save_flag_now.
  - unfold reachable. revert db.
    apply (rtc_ind_r (λ db, ∀ k r, db !! k = Some r →
                         cross_campus_attendance r = Spec.cross_campus r)).
    + intros k r Hl. by rewrite lookup_empty in Hl.
    + intros db1 db2 _ Hstep IH. by eapply step_preserves_flag.
Qed.

(** The record of the student of campus 2 at the event of campus 1 is
    stored with the flag on, though it was submitted with the flag off, and
    the flag is the one the user and event tables give at that time. *)
Lemma cross_campus_flag_recomputed_witness :
  cross_campus_attendance <$> Samples.visitor_attended !! 0 = Some true
  ∧ Samples.visitor_attended !! 0
      ≫= Spec.cross_campus_now Samples.users Samples.events
    = Some true.
Proof.
  destruct (cross_campus_flag_recomputed ∅) as (Hsave & _ & Hnow & _).
  destruct (save ∅ (Samples.submission Samples.open_event Samples.visitor))
    as [err | [db' a']] eqn:Hs; [by vm_compute in Hs |].
  destruct (Hsave _ _ _ Hs) as (_ & _ & Hflag & k & Hk & Hrow).
  specialize (Hnow Samples.users Samples.events _ _ _ Hs
                (conj eq_refl eq_refl)).
  assert (Samples.visitor_attended !! 0 = Some a') as ->.
  { unfold Samples.visitor_attended, Samples.after_save. rewrite Hs.
    vm_compute in Hs. injection Hs as <- <-. reflexivity. }
  simpl. rewrite Hnow, Hflag. split; reflexivity.
Defined.

(** C9, as stated, fails once the actor changes campus: the student of
    campus 2 attended the event of campus 1 and then moved to campus 1.
    The stored record still carries the flag, while the actor's home campus
    is now the campus of the event. *)
Lemma flag_stale_after_campus_change :
  reachable Samples.visitor_attended
  ∧ cross_campus_attendance <$> Samples.visitor_attended !! 0 = Some true
  ∧ Samples.visitor_attended !! 0
      ≫= Spec.cross_campus_now Samples.users_after_move Samples.events
    = Some false
  ∧ cross_campus_attendance <$> Samples.visitor_attended !! 0
    ≠ Samples.visitor_attended !! 0
        ≫= Spec.cross_campus_now Samples.users_after_move Samples.events.
Proof.
  split; [apply after_save_reachable, rtc_refl |].
  split; [by vm_compute |]. split; [by vm_compute |]. by vm_compute.
Qed.

End CrossCampus.

(** ** Resolving the campus of a request (apps/accounts/models.py,
       [get_accessible_campus_ids]; apps/shared/middleware.py) *)

Section Resolver.
Import Accounts Middleware.

Lemma int_truthy (s : string) (n : Z) : Py.int s = Some n → Py.truthy_str s = true.
Proof. by destruct s. Qed.

Lemma admin_role (u : User) :
  bool_decide (role u ∈ [campus_admin; super_admin]) = true
  ↔ role u = campus_admin ∨ role u = super_admin.
Proof.
  rewrite bool_decide_eq_true, !elem_of_cons, elem_of_nil. tauto.
Qed.

Lemma get_among_Some campuses (pk c : Z) (ids : list Z) :
  CampusModels.get_among campuses pk ids = Some c
  ↔ c = pk ∧ pk ∈ ids ∧ is_Some (campuses !! pk).
Proof.
  unfold CampusModels.get_among. destruct (campuses !! pk) as [row |].
  - destruct (Py.contains pk ids) eqn:Hin.
    + apply contains_true in Hin. split; [by intros [= <-] |].
      by intros (-> & _ & _).
    + apply contains_false in Hin. split; [done | by intros (_ & ? & _)].
  - split; [done |]. by intros (_ & _ & [? ?]).
Qed.

(** When the override block assigns a campus. *)
Lemma campus_override_Some campuses (u : User) (hdr : option string) (pk : Z) :
  campus_override campuses u hdr = Some pk
  ↔ (role u = campus_admin ∨ role u = super_admin)
    ∧ (∃ s, hdr = Some s ∧ Py.int s = Some pk)
    ∧ pk ∈ get_accessible_campus_ids campuses u
    ∧ is_Some (campuses !! pk).
Proof.
  unfold campus_override. destruct hdr as [s |].
  - destruct (bool_decide (role u ∈ [campus_admin; super_admin])) eqn:Hrole.
    + apply admin_role in Hrole. rewrite andb_true_r.
      destruct (Py.int s) as [n |] eqn:Hint.
      * rewrite (int_truthy _ _ Hint), get_among_Some. split.
        -- intros (-> & Hin & Hex). eauto 10.
        -- intros (_ & (s' & [= <-] & Hn) & Hin & Hex).
           rewrite Hint in Hn. by injection Hn as ->.
      * split; [by destruct (Py.truthy_str s) |].
        intros (_ & (s' & [= <-] & Hn) & _). congruence.
    + rewrite andb_false_r. split; [done |].
      intros (Hr & _). apply admin_role in Hr. congruence.
  - split; [done |]. by intros (_ & (s & ? & _) & _).
Qed.

Lemma elem_of_active_among campuses (ids : list Z) (c : Z) :
  c ∈ CampusModels.active_among campuses ids
  ↔ c ∈ ids ∧ ∃ row, campuses !! c = Some row
                     ∧ CampusModels.is_active row = true.
Proof.
  unfold CampusModels.active_among. rewrite list_elem_of_fmap. split.
  - intros ([k row] & -> & Hin). apply elem_of_map_to_list in Hin.
    apply map_lookup_filter_Some in Hin as [Hl [Hids Hact]]. simpl in *. eauto.
  - intros (Hids & row & Hl & Hact). exists (c, row). split; [done |].
    apply elem_of_map_to_list. by apply map_lookup_filter_Some.
Qed.

(** C5.  For an actor who is neither campus administrator nor super
    administrator the accessible campus ids are the home campus alone,
    whatever the actor's explicit list holds; whatever header the request
    carries the override is not applied, the campus of the request is the
    home campus, and the campuses attached to the request hold no campus
    but the home campus. *)
Theorem non_admin_home_only campuses (u : User) (hdr : option string) :
  role u ≠ campus_admin →
  role u ≠ super_admin →
  get_accessible_campus_ids campuses u = [campus_id u]
  ∧ campus_override campuses u hdr = None
  ∧ campus (process_request campuses
              {| user := Some u; HTTP_X_CAMPUS_ID := hdr |})
    = Some (campus_id u)
  ∧ ∀ c, c ∈ accessible_campuses
               (process_request campuses
                  {| user := Some u; HTTP_X_CAMPUS_ID := hdr |}) →
         c = campus_id u.
Proof.
  intros Hc Hs.
  assert (Hov : campus_override campuses u hdr = None).
  { destruct (campus_override campuses u hdr) as [pk |] eqn:Ho; [| done].
    apply campus_override_Some in Ho as ([? | ?] & _); congruence. }
  assert (Hids : get_accessible_campus_ids campuses u = [campus_id u]).
  { unfold get_accessible_campus_ids.
    rewrite (bool_decide_eq_false_2 _ Hs), (bool_decide_eq_false_2 _ Hc). done. }
  split; [done |]. split; [done |]. unfold process_request. simpl. split.
  - by rewrite Hov.
  - intros c Hin. apply elem_of_active_among in Hin as [Hin _].
    rewrite Hids in Hin. by apply list_elem_of_singleton in Hin.
Qed.

(** The student of campus 2, whose explicit list names campuses 1 and 2,
    asks for campus 1: the accessible campuses are campus 2 alone and the
    request stays on campus 2. *)
Lemma non_admin_home_only_witness :
  get_accessible_campus_ids Samples.campuses Samples.visitor = [2]
  ∧ campus (process_request Samples.campuses
              (Samples.request Samples.visitor (Some "1")))
    = Some 2.
Proof.
  destruct (non_admin_home_only Samples.campuses Samples.visitor (Some "1"))
    as (Hids & _ & Hc & _); [discriminate | discriminate |].
  split; [exact Hids | exact Hc].
Defined.



(** What [int] accepts of a header: white space around the number, not
    the separator U+001F, and no more than 4300 digits. *)
Example int_of_header :
  Py.int " 2 " = Some 2
  ∧ Py.int (String (ascii_of_nat 160) "2") = Some 2
  ∧ Py.int (String (ascii_of_nat 31) "2") = None
  ∧ Py.int "2x" = None
  ∧ Py.int (string_of_list_ascii (replicate 4301 "1"%char)) = None.
Proof. repeat split; by vm_compute. Qed.


End Resolver.

(** ** Campus-scoped queries (apps/campus/managers.py) *)

Section QuerySets.
Import Accounts Managers.
Context {A : Type} `{!CampusAware A}.

Lemma elem_of_for_campus (qs : list A) (c : Z) (row : A) :
  row ∈ for_campus qs c ↔ row ∈ qs ∧ campus_id_of row = c.
Proof. unfold for_campus. rewrite list_elem_of_filter. tauto. Qed.

(** C10, as amended.  For a user who is not super administrator
    [accessible_to_user] always filters by one campus: by the requested id
    when that id is not zero and is among the user's accessible campus ids,
    and by the user's home campus in every other case (no id requested, the
    id zero, or an id outside the accessible ones); a query set filtered by a
    campus holds exactly its rows of that campus. *)
Theorem accessible_to_user_scoped campuses (qs : list A) (u : User)
    (cid : option Z) :
  role u ≠ super_admin →
  (∀ c, cid = Some c → c ≠ 0 → c ∈ get_accessible_campus_ids campuses u →
     accessible_to_user campuses qs u cid = for_campus qs c)
  ∧ (cid = None ∨ cid = Some 0
     ∨ (∃ c, cid = Some c ∧ c ∉ get_accessible_campus_ids campuses u) →
     accessible_to_user campuses qs u cid = for_campus qs (campus_id u))
  ∧ (∀ c row, row ∈ for_campus qs c ↔ row ∈ qs ∧ campus_id_of row = c).
Proof.
  intros Hs. unfold accessible_to_user.
  rewrite (bool_decide_eq_false_2 _ Hs).
  split; [| split].
  - intros c -> Hc Hin. apply contains_true in Hin. rewrite Hin. simpl.
    by destruct (Z.eqb_spec c 0).
  - intros [-> | [-> | (c & -> & Hout)]]; [done | done |].
    apply contains_false in Hout. rewrite Hout. by rewrite andb_false_r.
  - intros c row. apply elem_of_for_campus.
Qed.

End QuerySets.

Section QuerySetSamples.
Import Accounts Managers.

(** The administrator of campus 1 whose list names 0 and campus 2 asks for
    campus 2: of the two users, the one of campus 2 is selected. *)
Lemma accessible_to_user_scoped_witness :
  accessible_to_user Samples.campuses [Samples.actor_a; Samples.visitor]
    Samples.zero_admin (Some 2)
  = [Samples.visitor].
Proof.
  destruct (accessible_to_user_scoped Samples.campuses
              [Samples.actor_a; Samples.visitor] Samples.zero_admin (Some 2))
    as (Hin & _); [discriminate |].
  rewrite (Hin 2 eq_refl); [reflexivity | lia |].
  apply contains_true. reflexivity.
Defined.

(** C10, as stated, fails for the requested id 0: it is on the
    administrator's list, yet the query is filtered by the home campus 1 and
    selects a row that is not of campus 0. *)
Lemma requested_zero_filters_home :
  0 ∈ get_accessible_campus_ids Samples.campuses Samples.zero_admin
  ∧ accessible_to_user Samples.campuses [Samples.actor_a; Samples.visitor]
      Samples.zero_admin (Some 0)
    = [Samples.actor_a]
  ∧ campus_id_of Samples.actor_a = 1
  ∧ campus_id_of Samples.actor_a ≠ 0.
Proof.
  split; [by apply contains_true |]. split; [done |]. split; [done |].
  by vm_compute.
Qed.

End QuerySetSamples.

(** * Further properties *)

(** ** Admission as a whole (apps/events/models.py, [can_user_attend]) *)

Section Admission.
Import AttendanceModels EventAttendance.

(** The outcome of [can_user_attend] for an eligible actor, by the first
    check that fails. *)
Lemma can_user_attend_cases db now (e : Events.Event) (u : Accounts.User) :
  Spec.tenant_eligible e u →
  (at_capacity db e = true ∧ can_user_attend db now e u = (false, msg_capacity))
  ∨ (at_capacity db e = false ∧ Spec.has_record db e u
     ∧ can_user_attend db now e u = (false, msg_duplicate))
  ∨ (at_capacity db e = false ∧ ¬ Spec.has_record db e u
     ∧ Events.can_mark_attendance now e = false
     ∧ can_user_attend db now e u = (false, msg_window))
  ∨ (at_capacity db e = false ∧ ¬ Spec.has_record db e u
     ∧ Events.can_mark_attendance now e = true
     ∧ can_user_attend db now e u = (true, msg_ok)).
Proof.
  intros He. rewrite (can_user_attend_eligible _ _ _ _ He).
  destruct (at_capacity db e); [by left |]. right.
  destruct (already_attended db e u) eqn:Hrec.
  - left. by apply already_attended_iff in Hrec.
  - right.
    assert (¬ Spec.has_record db e u) as Hno.
    { intros Hr. apply already_attended_iff in Hr. congruence. }
    destruct (Events.can_mark_attendance now e); simpl; [right | left]; done.
Qed.

(** Admission needs an open window. *)
Lemma admitted_window_open db now (e : Events.Event) (u : Accounts.User) :
  (can_user_attend db now e u).1 = true →
  Events.can_mark_attendance now e = true.
Proof.
  intros Hok.
  assert (Spec.tenant_eligible e u) as He.
  { apply (campus_gate_passes db now). intros Heq. by rewrite Heq in Hok. }
  destruct (can_user_attend_cases db now e u He)
    as [[_ Hr] | [(_ & _ & Hr) | [(_ & _ & _ & Hr) | (_ & _ & ? & _)]]];
    try done; by rewrite Hr in Hok.
Qed.

(** X1.  [can_user_attend] admits exactly when all four checks pass: the
    actor is eligible for the event's campus, the event is not at
    capacity, the pair has no record, and the attendance window is open. *)
Theorem admitted_iff db now (e : Events.Event) (u : Accounts.User) :
  (can_user_attend db now e u).1 = true
  ↔ Spec.tenant_eligible e u
    ∧ at_capacity db e = false
    ∧ ¬ Spec.has_record db e u
    ∧ Events.can_mark_attendance now e = true.
Proof.
  split.
  - intros Hok.
    assert (Spec.tenant_eligible e u) as He.
    { apply (campus_gate_passes db now). intros Heq. by rewrite Heq in Hok. }
    split; [done |].
    destruct (can_user_attend_cases db now e u He)
      as [[_ Hr] | [(_ & _ & Hr) | [(_ & _ & _ & Hr) | (? & ? & ? & _)]]];
      try done; by rewrite Hr in Hok.
  - intros (He & Hcap & Hno & Hw).
    destruct (can_user_attend_cases db now e u He)
      as [[? _] | [(_ & ? & _) | [(_ & _ & ? & _) | (_ & _ & _ & Hr)]]];
      try congruence; try done. by rewrite Hr.
Qed.

(** X2.  The reason [can_user_attend] reports is that of the first check
    that fails, in the order campus, capacity, duplicate, window: capacity
    is reported only to an eligible actor, the duplicate only when there
    is room, and the closed window only when the pair has no record. *)
Theorem refusal_reason db now (e : Events.Event) (u : Accounts.User) :
  (can_user_attend db now e u = (false, msg_capacity)
   ↔ Spec.tenant_eligible e u ∧ at_capacity db e = true)
  ∧ (can_user_attend db now e u = (false, msg_duplicate)
     ↔ Spec.tenant_eligible e u ∧ at_capacity db e = false
       ∧ Spec.has_record db e u)
  ∧ (can_user_attend db now e u = (false, msg_window)
     ↔ Spec.tenant_eligible e u ∧ at_capacity db e = false
       ∧ ¬ Spec.has_record db e u
       ∧ Events.can_mark_attendance now e = false).
Proof.
  assert (∀ msg, msg ≠ msg_campus →
            can_user_attend db now e u = (false, msg) →
            Spec.tenant_eligible e u) as Helig.
  { intros msg Hmsg Hr. apply (campus_gate_passes db now).
    rewrite Hr. congruence. }
  split; [| split]; split.
  - intros Hr.
    assert (Spec.tenant_eligible e u) as He
      by (eapply Helig; [| exact Hr]; discriminate).
    split; [done |].
    destruct (can_user_attend_cases db now e u He)
      as [[? _] | [(_ & _ & Hr') | [(_ & _ & _ & Hr') | (_ & _ & _ & Hr')]]];
      [done | | |]; rewrite Hr' in Hr; discriminate.
  - intros [He Hcap].
    destruct (can_user_attend_cases db now e u He)
      as [[_ Hr] | [(? & _) | [(? & _) | (? & _)]]]; congruence.
  - intros Hr.
    assert (Spec.tenant_eligible e u) as He
      by (eapply Helig; [| exact Hr]; discriminate).
    split; [done |].
    destruct (can_user_attend_cases db now e u He)
      as [[_ Hr'] | [(? & ? & _) | [(_ & _ & _ & Hr') | (_ & _ & _ & Hr')]]];
      [| done | |]; rewrite Hr' in Hr; discriminate.
  - intros (He & Hcap & Hrec).
    destruct (can_user_attend_cases db now e u He)
      as [[? _] | [(_ & _ & Hr) | [(_ & ? & _) | (_ & ? & _)]]];
      [congruence | done | done | done].
  - intros Hr.
    assert (Spec.tenant_eligible e u) as He
      by (eapply Helig; [| exact Hr]; discriminate).
    split; [done |].
    destruct (can_user_attend_cases db now e u He)
      as [[_ Hr'] | [(_ & _ & Hr') | [(? & ? & ? & _) | (_ & _ & _ & Hr')]]];
      [| | done |]; rewrite Hr' in Hr; discriminate.
  - intros (He & Hcap & Hno & Hw).
    destruct (can_user_attend_cases db now e u He)
      as [[? _] | [(_ & ? & _) | [(_ & _ & _ & Hr) | (_ & _ & ? & _)]]];
      [congruence | done | done | congruence].
Qed.

End Admission.

(** ** Saving a record and the checks that follow
       (apps/attendance/models.py, [save]; apps/events/models.py,
       [attendance_count], [can_user_attend]) *)

Section AfterSave.
Import AttendanceModels EventAttendance.

(** The present-count of an event after a row is written under a key that
    was free. *)
Lemma attendance_count_insert db k (a : Attendance) (e : Events.Event) :
  db !! k = None →
  attendance_count (<[k := a]> db) e
  = attendance_count db e
    + (if bool_decide (Events.id (event a) = Events.id e ∧ status a = present)
       then 1 else 0).
Proof.
  intros Hk. unfold attendance_count, attendance_records.
  rewrite !map_filter_filter.
  case_bool_decide as Hp.
  - rewrite map_filter_insert_True by (simpl; tauto).
    rewrite map_size_insert_None; [lia |].
    apply map_lookup_filter_None. by left.
  - rewrite map_filter_insert_False by (simpl; tauto).
    rewrite delete_id by done. lia.
Qed.

(** A successful [save] of an object without primary key writes it under
    a key that was free. *)
Lemma save_new db (a : Attendance) db' a' :
  pk a = None → save db a = inr (db', a') →
  ∃ k, db !! k = None ∧ db' = <[k := a']> db ∧ a' = with_pk (Some k) (pre_save a).
Proof.
  intros Hpk Hs. unfold save in Hs.
  apply super_save_inr in Hs as (k & -> & -> & Hk & _).
  destruct (unique_key_pre_save a) as [_ Hp]. rewrite Hp, Hpk in Hk.
  destruct Hk as [? | [_ Hk]]; [done |]. by exists k.
Qed.

Lemma pre_save_status (a : Attendance) : status (pre_save a) = status a.
Proof.
  unfold pre_save. destruct a as [p c e u s x m t]. simpl.
  by destruct (negb (Py.truthy_int c)), t, m.
Qed.

(** X3.  Once a record of an actor for an event has been saved,
    [can_user_attend] refuses that actor for that event, at every time. *)
Theorem saved_then_refused db (a : Attendance) db' a' now :
  save db a = inr (db', a') →
  (can_user_attend db' now (event a) (user a)).1 = false.
Proof.
  intros Hs. apply save_flag in Hs as (Hu & He & _ & k & _ & Hl).
  assert (Spec.has_record db' (event a) (user a)) as Hrec.
  { exists k, a'. by rewrite Hu, He. }
  destruct (can_user_attend_duplicate db' now _ _ Hrec) as (msg & Hr & _).
  by rewrite Hr.
Qed.

(** Actor A, admitted to the event without capacity and saved, is refused
    afterwards. *)
Lemma saved_then_refused_witness :
  (can_user_attend Samples.open_event_attended 150
     Samples.open_event Samples.actor_a).1 = false.
Proof.
  destruct (save ∅ (Samples.submission Samples.open_event Samples.actor_a))
    as [err | [db' a']] eqn:Hs; [by vm_compute in Hs |].
  pose proof (saved_then_refused _ _ _ _ 150 Hs) as Hr.
  unfold Samples.open_event_attended, Samples.after_save. rewrite Hs.
  exact Hr.
Defined.

(** X4.  Saving a new record (one without primary key) raises the
    present-count of its event by one when its status is [present], leaves
    it as it was for any other status, and leaves the present-count of
    every other event as it was. *)
Theorem new_record_counted db (a : Attendance) db' a' :
  pk a = None →
  save db a = inr (db', a') →
  attendance_count db' (event a)
  = attendance_count db (event a) + (if bool_decide (status a = present) then 1 else 0)
  ∧ ∀ e, Events.id e ≠ Events.id (event a) →
         attendance_count db' e = attendance_count db e.
Proof.
  intros Hpk Hs. pose proof (save_flag _ _ _ _ Hs) as (_ & He & _).
  destruct (save_new _ _ _ _ Hpk Hs) as (k & Hk & -> & Ha').
  assert (status a' = status a) as Hst.
  { rewrite Ha'. simpl. apply pre_save_status. }
  split.
  - rewrite (attendance_count_insert _ _ _ _ Hk), He, Hst.
    destruct (decide (status a = present)) as [Hp | Hp].
    + by rewrite !bool_decide_eq_true_2.
    + rewrite !bool_decide_eq_false_2; [done | done | by intros [_ ?]].
  - intros e Hne. rewrite (attendance_count_insert _ _ _ _ Hk), He.
    rewrite bool_decide_eq_false_2; [lia |]. intros [? _]. congruence.
Qed.

(** Actor A's record for the event of capacity 1 brings its present-count
    from 0 to 1. *)
Lemma new_record_counted_witness :
  attendance_count Samples.small_event_full Samples.small_event = 1.
Proof.
  destruct (save ∅ (Samples.submission Samples.small_event Samples.actor_a))
    as [err | [db' a']] eqn:Hs; [by vm_compute in Hs |].
  destruct (new_record_counted ∅
              (Samples.submission Samples.small_event Samples.actor_a)
              db' a' eq_refl Hs) as [Hc _].
  unfold Samples.small_event_full, Samples.after_save. rewrite Hs.
  exact Hc.
Defined.

(** X5.  When [can_user_attend] admits an actor to an event with a
    capacity other than zero and the new record is then saved, the
    present-count of the event does not exceed the capacity. *)
Theorem admitted_within_capacity db now (e : Events.Event) (u : Accounts.User)
    (m : Z) (a : Attendance) db' a' :
  Events.max_participants e = Some m → m ≠ 0 →
  can_user_attend db now e u = (true, msg_ok) →
  pk a = None → event a = e →
  save db a = inr (db', a') →
  attendance_count db' e ≤ m.
Proof.
  intros Hmax Hm Hok Hpk He Hs.
  assert (Spec.tenant_eligible e u) as Hel.
  { apply (campus_gate_passes db now). by rewrite Hok. }
  rewrite (can_user_attend_eligible _ _ _ _ Hel) in Hok.
  destruct (at_capacity db e) eqn:Hcap; [done |].
  assert (attendance_count db e < m) as Hlt.
  { apply Z.lt_nge. intros Hge.
    apply (at_capacity_nonzero db e m Hmax Hm) in Hge. congruence. }
  destruct (save_new _ _ _ _ Hpk Hs) as (k & Hk & -> & _).
  rewrite (attendance_count_insert _ _ _ _ Hk). case_bool_decide; lia.
Qed.

(** Actor A is admitted to the event of capacity 1 and saved: the
    present-count stays within 1. *)
Lemma admitted_within_capacity_witness :
  attendance_count Samples.small_event_full Samples.small_event ≤ 1.
Proof.
  destruct (save ∅ (Samples.submission Samples.small_event Samples.actor_a))
    as [err | [db' a']] eqn:Hs; [by vm_compute in Hs |].
  unfold Samples.small_event_full, Samples.after_save. rewrite Hs.
  apply (admitted_within_capacity ∅ 150 Samples.small_event Samples.actor_a 1
           (Samples.submission Samples.small_event Samples.actor_a) db' a');
    [reflexivity | lia | by vm_compute | reflexivity | reflexivity | exact Hs].
Defined.

End AfterSave.

(** ** What saving an event keeps and what follows from its window
       (apps/events/models.py, [save], [generate_qr_code], [is_ongoing]) *)

Section EventAfterSave.
Import Events EventQueries.

(** [save] changes nothing but the primary key, the window and the QR
    fields of the object. *)
Lemma save_keeps default db (e : Event) :
  campus_id (save default db e).2 = campus_id e
  ∧ date (save default db e).2 = date e
  ∧ start_time (save default db e).2 = start_time e
  ∧ end_time (save default db e).2 = end_time e
  ∧ is_multi_campus (save default db e).2 = is_multi_campus e
  ∧ allowed_campuses (save default db e).2 = allowed_campuses e
  ∧ max_participants (save default db e).2 = max_participants e.
Proof.
  unfold save, super_save, generate_qr_code, auto_window.
  destruct e as [i c d st en m al mp q qd ws we]. simpl.
  destruct ws, d, st; simpl; destruct (negb _); simpl; done.
Qed.

(** The saved object carries a primary key, its own if it had one, and is
    the row stored under that key. *)
Lemma save_stored default db (e : Event) :
  ∃ u, u = match id e with Some u0 => u0 | None => default end
       ∧ id (save default db e).2 = Some u
       ∧ (save default db e).1 !! u = Some (save default db e).2
       ∧ ∀ u', u' ≠ u → (save default db e).1 !! u' = db !! u'.
Proof.
  destruct (auto_window_keeps e) as (Hid & _).
  exists (match id e with Some u0 => u0 | None => default end).
  split; [done |]. unfold save, super_save. rewrite Hid.
  set (u := match id e with Some u0 => u0 | None => default end).
  destruct (negb _); simpl.
  - unfold generate_qr_code. simpl. rewrite alter_insert_eq.
    repeat split.
    + by rewrite lookup_insert_eq.
    + intros u' Hne. by rewrite lookup_insert_ne.
  - repeat split.
    + by rewrite lookup_insert_eq.
    + intros u' Hne. by rewrite lookup_insert_ne.
Qed.

(** X6.  [save] leaves the campus, the schedule, the multi-campus
    settings and the capacity of the event as they were, keeps a primary
    key the event already has, stores the saved event under its key, and
    leaves every other row of the event table as it was. *)
Theorem event_save_frame default db (e : Event) :
  (campus_id (save default db e).2 = campus_id e
   ∧ date (save default db e).2 = date e
   ∧ start_time (save default db e).2 = start_time e
   ∧ end_time (save default db e).2 = end_time e
   ∧ is_multi_campus (save default db e).2 = is_multi_campus e
   ∧ allowed_campuses (save default db e).2 = allowed_campuses e
   ∧ max_participants (save default db e).2 = max_participants e)
  ∧ (∀ u, id e = Some u → id (save default db e).2 = Some u)
  ∧ ∃ u, id (save default db e).2 = Some u
         ∧ (save default db e).1 !! u = Some (save default db e).2
         ∧ ∀ u', u' ≠ u → (save default db e).1 !! u' = db !! u'.
Proof.
  split; [apply save_keeps |].
  destruct (save_stored default db e) as (u & Hu & Hid & Hrow & Hrest).
  split.
  - intros u0 He. rewrite He in Hu. by rewrite Hid, Hu.
  - by exists u.
Qed.

(** X7.  An event whose schedule is set (date, start and end time, as
    the table requires of a stored event) and which comes with a window
    start but without a window end: [save] does not fill in the window end,
    attendance can be marked at no time, and the saved event admits nobody,
    whatever the attendance table and the time. *)
Theorem incomplete_window_admits_nobody default db (e : Event) adb now
    (u : Accounts.User) :
  is_Some (date e) → is_Some (start_time e) → is_Some (end_time e) →
  is_Some (attendance_window_start e) → attendance_window_end e = None →
  attendance_window_end (save default db e).2 = None
  ∧ can_mark_attendance now (save default db e).2 = false
  ∧ (EventAttendance.can_user_attend adb now (save default db e).2 u).1 = false.
Proof.
  intros _ _ _ [ws Hs] He.
  destruct (save_window default db e) as [Hws Hwe].
  assert (auto_window e = e) as Hsame.
  { unfold auto_window. by rewrite Hs. }
  rewrite Hsame in Hws, Hwe.
  assert (can_mark_attendance now (save default db e).2 = false) as Hclosed.
  { unfold can_mark_attendance. rewrite Hws, Hwe, He, Hs. done. }
  split; [by rewrite Hwe |]. split; [done |].
  apply not_true_is_false. intros Hok.
  apply admitted_window_open in Hok. congruence.
Qed.

(** The event saved with a window start but no window end admits actor A
    at no time, for instance not at the window start itself. *)
Lemma incomplete_window_admits_nobody_witness :
  (EventAttendance.can_user_attend ∅ 100
     (save Samples.event_uuid ∅ FurtherSamples.event_without_window_end).2
     Samples.actor_a).1 = false.
Proof.
  apply (incomplete_window_admits_nobody Samples.event_uuid ∅
           FurtherSamples.event_without_window_end ∅ 100 Samples.actor_a);
    try (by eexists); reflexivity.
Defined.

(** X8.  For an event saved with a date, a start and an end time and no
    window of its own: [is_ongoing] is as before the save; while the event
    is ongoing, attendance can be marked exactly until 30 minutes after the
    start; and whenever attendance can be marked before the start, the
    event is not ongoing. *)
Theorem ongoing_and_window default db (e : Event) (d s t now : Z) :
  attendance_window_start e = None →
  date e = Some d → start_time e = Some s → end_time e = Some t →
  is_ongoing now (save default db e).2 = is_ongoing now e
  ∧ (is_ongoing now (save default db e).2 = Some true →
     (can_mark_attendance now (save default db e).2 = true
      ↔ now ≤ Datetime.combine d s + Datetime.timedelta_minutes 30))
  ∧ (can_mark_attendance now (save default db e).2 = true →
     now < Datetime.combine d s →
     is_ongoing now (save default db e).2 = Some false).
Proof.
  intros Hws Hd Hs Ht.
  destruct (save_keeps default db e) as (_ & Hd' & Hs' & Ht' & _).
  destruct (save_window default db e) as [Hws' Hwe'].
  assert (Ha : auto_window e
               = with_window
                   (Some (Datetime.make_aware (Datetime.combine d s)
                          - Datetime.timedelta_minutes 30))
                   (Some (Datetime.make_aware (Datetime.combine d s)
                          + Datetime.timedelta_minutes 30)) e).
  { unfold auto_window. by rewrite Hws, Hd, Hs. }
  rewrite Ha in Hws', Hwe'. simpl in Hws', Hwe'.
  pose proof (can_mark_attendance_spec _ now _ _ Hws' Hwe') as Hmark.
  assert (Hon : is_ongoing now (save default db e).2
                = Some ((Datetime.combine d s <=? now)
                        && (now <=? Datetime.combine d t))).
  { unfold is_ongoing. by rewrite Hd', Hs', Ht', Hd, Hs, Ht. }
  unfold Datetime.make_aware, Datetime.timedelta_minutes,
    Datetime.us_per_minute in *.
  split; [| split].
  - rewrite Hon. unfold is_ongoing. by rewrite Hd, Hs, Ht.
  - rewrite Hon. intros [= Htrue]. apply andb_true_iff in Htrue as [H1 H2].
    apply Z.leb_le in H1. rewrite Hmark. lia.
  - intros Hm Hlt. rewrite Hon. f_equal.
    apply andb_false_iff. left. apply Z.leb_gt. lia.
Qed.

(** The new sample event, from 10:00 to 12:00: at 11:00 it is ongoing and
    attendance can no longer be marked. *)
Lemma ongoing_and_window_witness :
  is_ongoing (Datetime.combine 739000 39600000000)
    (save Samples.event_uuid ∅ Samples.new_event).2 = Some true
  ∧ can_mark_attendance (Datetime.combine 739000 39600000000)
      (save Samples.event_uuid ∅ Samples.new_event).2 ≠ true.
Proof.
  destruct (ongoing_and_window Samples.event_uuid ∅ Samples.new_event
              739000 36000000000 43200000000
              (Datetime.combine 739000 39600000000)
              eq_refl eq_refl eq_refl eq_refl) as (Hsame & Hiff & _).
  assert (Hon : is_ongoing (Datetime.combine 739000 39600000000)
                  (save Samples.event_uuid ∅ Samples.new_event).2 = Some true).
  { rewrite Hsame. reflexivity. }
  split; [exact Hon |]. intros Hm. apply (Hiff Hon) in Hm.
  vm_compute in Hm. by apply Hm.
Defined.

Lemma length_string_of_list_ascii (l : list ascii) :
  String.length (string_of_list_ascii l) = length l.
Proof. induction l as [| c l IH]; simpl; [done |]. by rewrite IH. Qed.

Lemma length_append (s1 s2 : string) :
  String.length (s1 +:+ s2) = (String.length s1 + String.length s2)%nat.
Proof. induction s1 as [| c s1 IH]; simpl; [done |]. by rewrite IH. Qed.

Lemma length_str (u : Uuid.UUID) : String.length (Uuid.str u) = 36%nat.
Proof.
  unfold Uuid.str, Uuid.str_chars. rewrite length_string_of_list_ascii.
  pose proof (length_hex 32 (Uuid.int u)) as Hh. revert Hh.
  generalize (Uuid.hex 32 (Uuid.int u)). intros h Hh.
  repeat (rewrite ?length_app, ?length_cons, ?length_take, ?length_drop).
  lia.
Qed.

(** X9.  The payload issued to an event saved without QR image is 70
    characters long, whatever the event's key: it fits the 500 characters
    of the [qr_code_data] column. *)
Theorem payload_length default db (e : Event) :
  has_qr_code e = false →
  String.length (qr_code_data (save default db e).2) = 70%nat
  ∧ (String.length (qr_code_data (save default db e).2) ≤ 500)%nat.
Proof.
  intros Hq.
  destruct (save_without_qr default db e Hq) as (u & e1 & -> & _ & _ & Hd & _).
  simpl. rewrite Hd, length_append, length_str. simpl. lia.
Qed.

(** The payload of the new sample event has 70 characters. *)
Lemma payload_length_witness :
  String.length (qr_code_data (save Samples.event_uuid ∅ Samples.new_event).2)
  = 70%nat.
Proof.
  apply (payload_length Samples.event_uuid ∅ Samples.new_event). reflexivity.
Defined.

End EventAfterSave.

(** ** What a saved record carries (apps/attendance/models.py, [save],
       [is_late]) *)

Section RecordAfterSave.
Import AttendanceModels AttendanceQueries.

Lemma pre_save_campus (a : Attendance) :
  campus_id (pre_save a)
  = if Py.truthy_int (campus_id a) then campus_id a
    else Some (Events.campus_id (event a)).
Proof.
  unfold pre_save. destruct a as [p c e u s x m t]. simpl.
  by destruct (Py.truthy_int c), t, m.
Qed.

Lemma pre_save_arrival (a : Attendance) :
  arrival_time (pre_save a)
  = match arrival_time a, marked_at a with
    | None, Some m => Some (Datetime.time_of m)
    | t, _ => t
    end.
Proof.
  unfold pre_save. destruct a as [p c e u s x m t]. simpl.
  by destruct (negb (Py.truthy_int c)), t, m.
Qed.

Lemma pre_save_idem (a : Attendance) : pre_save (pre_save a) = pre_save a.
Proof.
  unfold pre_save. destruct a as [p c e u s x m t]. simpl.
  destruct c as [c |]; simpl; [destruct (c =? 0) eqn:Hc; simpl |];
    destruct t, m; simpl; rewrite ?Hc; simpl; try reflexivity;
    destruct (Events.campus_id e =? 0); reflexivity.
Qed.

Lemma pre_save_with_pk (a : Attendance) (k : option Z) :
  pre_save (with_pk k a) = with_pk k (pre_save a).
Proof.
  unfold pre_save. destruct a as [p c e u s x m t]. simpl.
  by destruct (negb (Py.truthy_int c)), t, m.
Qed.

(** X10.  A saved record carries a campus: the one the caller supplied
    when that is set and not zero, and otherwise the campus of the event
    (not the actor's home campus). *)
Theorem save_sets_campus db (a : Attendance) db' a' :
  save db a = inr (db', a') →
  (∀ c, campus_id a = Some c → c ≠ 0 → campus_id a' = Some c)
  ∧ (campus_id a = None ∨ campus_id a = Some 0 →
     campus_id a' = Some (Events.campus_id (event a))).
Proof.
  unfold save. intros Hs.
  apply super_save_inr in Hs as (k & _ & -> & _). simpl.
  rewrite pre_save_campus. split.
  - intros c -> Hc. simpl. by destruct (Z.eqb_spec c 0).
  - by intros [-> | ->].
Qed.

(** The student of campus 2, saved without campus for the event of
    campus 1, is recorded under campus 1. *)
Lemma save_sets_campus_witness :
  campus_id <$> Samples.visitor_attended !! 0 = Some (Some 1).
Proof.
  destruct (save ∅ (Samples.submission Samples.open_event Samples.visitor))
    as [err | [db' a']] eqn:Hs; [by vm_compute in Hs |].
  destruct (save_sets_campus _ _ _ _ Hs) as [_ Hnone].
  specialize (Hnone (or_introl eq_refl)).
  unfold Samples.visitor_attended, Samples.after_save. rewrite Hs.
  vm_compute in Hs. injection Hs as <- <-. reflexivity.
Defined.

(** X11.  In every reachable state of the attendance table each stored
    record carries the key it is stored under as its primary key, a campus,
    and an event that has a primary key. *)
Theorem stored_rows_complete db :
  reachable db →
  ∀ k r, db !! k = Some r →
         pk r = Some k ∧ is_Some (campus_id r)
         ∧ is_Some (Events.id (event r)).
Proof.
  unfold reachable. revert db.
  apply (rtc_ind_r (λ db, ∀ k r, db !! k = Some r →
                       pk r = Some k ∧ is_Some (campus_id r)
                       ∧ is_Some (Events.id (event r)))).
  - intros k r Hl. by rewrite lookup_empty in Hl.
  - intros db1 db2 _ Hstep IH k r Hl.
    destruct Hstep as [db a db' a' Hsave | db k0 | db k0 s].
    + unfold save in Hsave. pose proof Hsave as Hsave'.
      unfold super_save in Hsave'.
      destruct (Events.id (event (pre_save a))) as [eid |] eqn:Heid; [| done].
      apply super_save_inr in Hsave as (k1 & -> & -> & _).
      destruct (decide (k = k1)) as [-> | Hne].
      * rewrite lookup_insert_eq in Hl. injection Hl as <-. simpl.
        split; [done |]. split; [| by rewrite Heid].
        rewrite pre_save_campus.
        destruct (campus_id a) as [c |]; simpl; [| by eexists].
        destruct (negb (c =? 0)); by eexists.
      * rewrite lookup_insert_ne in Hl by done. by apply IH.
    + apply lookup_delete_Some in Hl as [_ Hl]. by apply IH.
    + apply lookup_alter_Some in Hl as [(-> & x & Hl & ->) | [_ Hl]];
        [| by apply IH].
      apply IH in Hl. by destruct x.
Qed.

(** The record of actor A in the table of the event without capacity is
    stored under key 0 and carries that key. *)
Lemma stored_rows_complete_witness :
  pk <$> Samples.open_event_attended !! 0 = Some (Some 0).
Proof.
  destruct (Samples.open_event_attended !! 0) as [r |] eqn:Hr;
    [| by vm_compute in Hr].
  destruct (stored_rows_complete Samples.open_event_attended
              (after_save_reachable ∅ _ (rtc_refl _ _)) 0 r Hr) as (Hpk & _).
  simpl. by rewrite Hpk.
Defined.

(** X12.  Saving again the object a successful [save] returned succeeds
    and changes neither the table nor the object. *)
Theorem save_again_same db (a : Attendance) db' a' :
  save db a = inr (db', a') →
  save db' a' = inr (db', a').
Proof.
  unfold save. intros Hs. pose proof Hs as Hs'. unfold super_save in Hs'.
  destruct (Events.id (event (pre_save a))) as [eid |] eqn:Heid; [| done].
  clear Hs'.
  apply super_save_inr in Hs as (k & -> & -> & Hpk & Hv).
  rewrite pre_save_with_pk, pre_save_idem. unfold super_save. simpl.
  rewrite Heid.
  assert (violates_unique_together (<[k := with_pk (Some k) (pre_save a)]> db)
            (with_pk (Some k) (pre_save a)) = false) as ->.
  { unfold violates_unique_together. apply bool_decide_eq_false.
    intros (k' & r & Hl & Hne & Hkey). simpl in Hne.
    assert (k' ≠ k) as Hk' by congruence.
    rewrite lookup_insert_ne in Hl by done.
    pose proof (violates_false _ _ Hv k' r Hl Hkey) as Hsame.
    destruct Hpk as [Hpk | [Hpk _]]; congruence. }
  by rewrite insert_insert_eq.
Qed.

(** Saving actor A's stored record again leaves the table as it is. *)
Lemma save_again_same_witness :
  ∃ a', save Samples.open_event_attended a'
        = inr (Samples.open_event_attended, a').
Proof.
  destruct (save ∅ (Samples.submission Samples.open_event Samples.actor_a))
    as [err | [db' a']] eqn:Hs; [by vm_compute in Hs |].
  exists a'. unfold Samples.open_event_attended, Samples.after_save.
  rewrite Hs. exact (save_again_same _ _ _ _ Hs).
Defined.

(** X13.  For a saved record whose event has a start time: when the
    caller gave no arrival time, the record is late exactly when the time of
    day on the clock of [marked_at]'s own time zone is after the start
    time, so that a record of the same event marked any number of whole days
    later is late or not alike; for the default [marked_at], a datetime in
    UTC, that clock is the UTC clock, whatever the configured time zone;
    when the caller gave an arrival time, that time alone decides. *)
Theorem is_late_after_save db (a : Attendance) db' a' (s : Z) :
  save db a = inr (db', a') →
  Events.start_time (event a) = Some s →
  (∀ m, arrival_time a = None → marked_at a = Some m →
        (is_late a' = true ↔ s < Datetime.time_of m)
        ∧ ∀ db2 b db2' b' days,
            save db2 b = inr (db2', b') →
            event b = event a → arrival_time b = None →
            marked_at b = Some (Datetime.plus_days days m) →
            is_late b' = is_late a')
  ∧ (∀ utcoffset now,
        arrival_time a = None →
        marked_at a = Some (Datetime.now_utc utcoffset now) →
        (is_late a' = true
         ↔ s < (now - utcoffset) `mod` Datetime.us_per_day))
  ∧ (∀ t, arrival_time a = Some t → (is_late a' = true ↔ s < t)).
Proof.
  intros Hs Hstart.
  assert (∀ db1 x db1' x',
            save db1 x = inr (db1', x') →
            Events.start_time (event x) = Some s →
            is_late x'
            = match arrival_time (pre_save x) with
              | Some t => s <? t
              | None => false
              end) as Hlate.
  { intros db1 x db1' x' Hx Hsx. apply save_flag in Hx as Hflag.
    destruct Hflag as (_ & He & _).
    unfold save in Hx. apply super_save_inr in Hx as (k & _ & -> & _).
    unfold is_late. simpl. simpl in He. by rewrite He, Hsx. }
  rewrite (Hlate _ _ _ _ Hs Hstart), pre_save_arrival.
  split; [| split].
  - intros m Ha Hm. rewrite Ha, Hm, Z.ltb_lt. split; [done |].
    intros db2 b db2' b' days Hb Heb Hab Hmb.
    rewrite (Hlate _ _ _ _ Hb); [| by rewrite Heb].
    rewrite pre_save_arrival, Hab, Hmb.
    unfold Datetime.time_of, Datetime.plus_days. simpl.
    replace (Datetime.instant m + days * Datetime.us_per_day
             + Datetime.clock_ahead m)
      with (Datetime.instant m + Datetime.clock_ahead m
            + days * Datetime.us_per_day) by lia.
    by rewrite Z_mod_plus_full.
  - intros utcoffset now Ha Hm. rewrite Ha, Hm, Z.ltb_lt.
    unfold Datetime.time_of, Datetime.now_utc. simpl.
    by rewrite Z.add_opp_r.
  - intros t ->. by rewrite Z.ltb_lt.
Qed.

(** The record marked one microsecond after the start of its event, on a
    clock in the configured time zone, is late. *)
Lemma is_late_after_save_witness :
  ∃ db' a', save ∅ FurtherSamples.late_submission = inr (db', a')
            ∧ is_late a' = true.
Proof.
  destruct (save ∅ FurtherSamples.late_submission)
    as [err | [db' a']] eqn:Hs; [by vm_compute in Hs |].
  exists db', a'. split; [done |].
  destruct (is_late_after_save _ _ _ _ 36000000000 Hs eq_refl) as [Hm _].
  apply (Hm _ eq_refl eq_refl).
  by vm_compute.
Defined.

(** The same instant recorded by the default of [marked_at], where the
    configured time zone is eight hours ahead of UTC: the arrival time is
    02:00:00.000001 and the record is not late. *)
Example default_marked_at_reads_utc :
  ∃ db' a', save ∅ FurtherSamples.default_submission = inr (db', a')
            ∧ arrival_time a' = Some 7200000001
            ∧ is_late a' = false.
Proof.
  destruct (save ∅ FurtherSamples.default_submission)
    as [err | [db' a']] eqn:Hs; [by vm_compute in Hs |].
  exists db', a'. vm_compute in Hs. injection Hs as <- <-.
  split; [done |]. split; reflexivity.
Qed.

End RecordAfterSave.

(** ** Counting attendance (apps/accounts/models.py,
       [get_attendance_count]; apps/events/models.py,
       [get_attendance_for_campus]) *)

Section Counting.
Import AttendanceModels EventAttendance EventQueries AccountQueries.

Lemma size_filter_le {V} (P : Z * V → Prop) `{!∀ x, Decision (P x)}
    (m : gmap Z V) :
  (size (filter P m) ≤ size m)%nat.
Proof. apply map_subseteq_size, map_filter_subseteq. Qed.

(** X14.  [get_attendance_count] treats the campus id 0 like no campus
    id and counts all records of the user; a count restricted to a campus
    never exceeds the unrestricted count; and in every reachable state of
    the attendance table the records of a user are for pairwise different
    events, so the unrestricted count is the number of events attended. *)
Theorem attendance_count_of_user db (u : Accounts.User) :
  get_attendance_count db u (Some 0) = get_attendance_count db u None
  ∧ (∀ c, 0 ≤ get_attendance_count db u c ≤ get_attendance_count db u None)
  ∧ (reachable db →
     NoDup ((λ kv, Events.id (event kv.2))
              <$> map_to_list
                    (filter (λ kv, Accounts.id (user kv.2) = Accounts.id u) db))
     ∧ Z.of_nat
         (length
            ((λ kv, Events.id (event kv.2))
               <$> map_to_list
                     (filter (λ kv, Accounts.id (user kv.2) = Accounts.id u)
                        db)))
       = get_attendance_count db u None).
Proof.
  split; [done |]. split.
  - intros c. unfold get_attendance_count. simpl.
    destruct (Py.truthy_int c); [| lia].
    split; [lia |]. apply inj_le, size_filter_le.
  - intros Hr. apply reachable_unique in Hr. split.
    + apply NoDup_fmap_2_strong; [| apply NoDup_map_to_list].
      intros [k1 r1] [k2 r2] H1 H2 Hev. simpl in Hev.
      apply elem_of_map_to_list in H1, H2.
      apply map_lookup_filter_Some in H1 as [H1 Hu1].
      apply map_lookup_filter_Some in H2 as [H2 Hu2]. simpl in *.
      assert (k1 = k2) as ->.
      { apply (Hr k1 k2 r1 r2 H1 H2). unfold unique_key. congruence. }
      congruence.
    + rewrite length_fmap, length_map_to_list. reflexivity.
Qed.

(** In the table that holds actor A's record for the event without
    capacity, actor A has attended one event. *)
Lemma attendance_count_of_user_witness :
  get_attendance_count Samples.open_event_attended Samples.actor_a None = 1.
Proof.
  destruct (attendance_count_of_user Samples.open_event_attended
              Samples.actor_a) as (_ & _ & Hr).
  destruct (Hr (after_save_reachable ∅ _ (rtc_refl _ _))) as [_ <-].
  reflexivity.
Defined.

(** X15.  The present-count of an event for one campus never exceeds the
    present-count of the event, and the present-counts for two different
    campuses together do not exceed it either. *)
Theorem attendance_by_campus db (e : Events.Event) (c1 c2 : Z) :
  0 ≤ get_attendance_for_campus db e c1 ≤ attendance_count db e
  ∧ (c1 ≠ c2 →
     get_attendance_for_campus db e c1 + get_attendance_for_campus db e c2
     ≤ attendance_count db e).
Proof.
  unfold get_attendance_for_campus, attendance_count.
  set (m := attendance_records db e).
  set (A := filter (λ kv, campus_id kv.2 = Some c1 ∧ status kv.2 = present) m).
  set (B := filter (λ kv, campus_id kv.2 = Some c2 ∧ status kv.2 = present) m).
  set (Q := filter (λ kv : Z * Attendance, status kv.2 = present) m).
  assert (A ⊆ Q) as HA.
  { apply map_filter_subseteq_ext. intros k r _ [_ ?]. done. }
  assert (B ⊆ Q) as HB.
  { apply map_filter_subseteq_ext. intros k r _ [_ ?]. done. }
  split.
  - split; [lia |]. apply inj_le, map_subseteq_size, HA.
  - intros Hne.
    assert (A ##ₘ B) as Hdisj.
    { apply map_disjoint_spec. intros k r1 r2 H1 H2.
      apply map_lookup_filter_Some in H1 as [H1 [Hc1 _]].
      apply map_lookup_filter_Some in H2 as [H2 [Hc2 _]].
      simpl in *. congruence. }
    rewrite <- Nat2Z.inj_add, <- map_size_disj_union by done.
    apply inj_le, map_subseteq_size. by apply map_union_least.
Qed.

End Counting.

(** ** Who may work on which campus (apps/accounts/models.py,
       apps/shared/middleware.py, apps/campus/api/views.py) *)

Section Access.
Import Accounts Middleware.

Lemma elem_of_active_ids campuses (c : Z) :
  c ∈ CampusModels.active_ids campuses
  ↔ ∃ row, campuses !! c = Some row ∧ CampusModels.is_active row = true.
Proof.
  unfold CampusModels.active_ids. rewrite list_elem_of_fmap. split.
  - intros ([k row] & -> & Hin). apply elem_of_map_to_list in Hin.
    apply map_lookup_filter_Some in Hin as [Hl Hact]. simpl in *. eauto.
  - intros (row & Hl & Hact). exists (c, row). split; [done |].
    apply elem_of_map_to_list. by apply map_lookup_filter_Some.
Qed.

(** X16.  For a super administrator the accessible campus ids are the
    ids of the campuses that are active at the time of the call, each
    once, whatever the administrator's home campus and explicit list
    are. *)
Theorem super_admin_accessible campuses (u : User) :
  role u = super_admin →
  (∀ c, c ∈ get_accessible_campus_ids campuses u
        ↔ ∃ row, campuses !! c = Some row
                 ∧ CampusModels.is_active row = true)
  ∧ NoDup (get_accessible_campus_ids campuses u).
Proof.
  intros Hr. unfold get_accessible_campus_ids.
  rewrite (bool_decide_eq_true_2 _ Hr). split.
  - intros c. apply elem_of_active_ids.
  - apply NoDup_fst_map_to_list.
Qed.

(** The super administrator whose home campus 3 is inactive can access
    campus 1 and cannot access campus 3. *)
Lemma super_admin_accessible_witness :
  1 ∈ get_accessible_campus_ids Samples.campuses FurtherSamples.root_admin
  ∧ can_access_campus Samples.campuses FurtherSamples.root_admin 3 = false.
Proof.
  destruct (super_admin_accessible Samples.campuses FurtherSamples.root_admin
              eq_refl) as [Hiff _].
  split.
  - apply Hiff. eexists. split; reflexivity.
  - apply contains_false. intros Hin. apply Hiff in Hin as (row & Hl & Hact).
    vm_compute in Hl. injection Hl as <-. discriminate.
Defined.

(** X17.  A super administrator's campus override is applied exactly
    when the header parses to the id of a campus that exists and is
    active. *)
Theorem super_admin_override campuses (u : User) (hdr : option string) pk :
  role u = super_admin →
  campus_override campuses u hdr = Some pk
  ↔ (∃ s, hdr = Some s ∧ Py.int s = Some pk)
    ∧ ∃ row, campuses !! pk = Some row ∧ CampusModels.is_active row = true.
Proof.
  intros Hr. rewrite campus_override_Some.
  assert (pk ∈ get_accessible_campus_ids campuses u
          ↔ ∃ row, campuses !! pk = Some row
                   ∧ CampusModels.is_active row = true) as Hacc.
  { unfold get_accessible_campus_ids. rewrite (bool_decide_eq_true_2 _ Hr).
    apply elem_of_active_ids. }
  rewrite Hacc. split.
  - intros (_ & Hs & Hrow & _). done.
  - intros (Hs & row & Hl & Hact). split; [by right |].
    split; [done |]. split; [by exists row | by exists row].
Qed.

(** The super administrator asks for the inactive campus 3: the override
    is not applied. *)
Lemma super_admin_override_witness :
  campus_override Samples.campuses FurtherSamples.root_admin (Some "3") = None.
Proof.
  destruct (campus_override Samples.campuses FurtherSamples.root_admin
              (Some "3")) as [pk |] eqn:Ho; [| reflexivity].
  apply (super_admin_override Samples.campuses FurtherSamples.root_admin
           (Some "3") pk eq_refl) in Ho as ((s & [= <-] & Hint) & row & Hl & Hact).
  vm_compute in Hint. injection Hint as <-.
  vm_compute in Hl. injection Hl as <-. discriminate.
Defined.

(** X18.  The campus [process_request] attaches to a request is the
    user's home campus or a campus that exists and that the user, a campus
    or super administrator, can access; a request without authenticated user
    gets no campus and no accessible campuses. *)
Theorem effective_campus_safe campuses (req : Request) :
  (∀ c, campus (process_request campuses req) = Some c →
        ∃ u, user req = Some u
             ∧ (c = campus_id u
                ∨ ((role u = campus_admin ∨ role u = super_admin)
                   ∧ can_access_campus campuses u c = true
                   ∧ is_Some (campuses !! c))))
  ∧ (user req = None →
     campus (process_request campuses req) = None
     ∧ accessible_campuses (process_request campuses req) = []).
Proof.
  unfold process_request. split.
  - intros c. destruct (user req) as [u |]; [| done]. simpl.
    destruct (campus_override campuses u (HTTP_X_CAMPUS_ID req))
      as [pk |] eqn:Ho.
    + intros [= <-]. exists u. split; [done |]. right.
      apply campus_override_Some in Ho as (Hr & _ & Hin & Hex).
      split; [done |]. split; [| done]. by apply contains_true.
    + intros [= <-]. exists u. split; [done |]. by left.
  - by intros ->.
Qed.

(** X19.  A campus administrator whose explicit list is not empty and
    does not name the home campus cannot access the home campus and does
    not find it among the campuses the campus API lists; yet without an
    override the request is on the home campus and queries are scoped to
    it. *)
Theorem home_campus_left_out campuses (u : User) :
  role u = campus_admin →
  accessible_campus_ids u ≠ [] →
  campus_id u ∉ accessible_campus_ids u →
  can_access_campus campuses u (campus_id u) = false
  ∧ (campus_id u ∉ CampusViews.get_queryset campuses u)
  ∧ campus (process_request campuses
              {| user := Some u; HTTP_X_CAMPUS_ID := None |})
    = Some (campus_id u)
  ∧ ∀ (qs : list User),
      Managers.accessible_to_user campuses qs u None
      = Managers.for_campus qs (campus_id u).
Proof.
  intros Hr Hne Hout.
  assert (get_accessible_campus_ids campuses u = accessible_campus_ids u)
    as Hids.
  { unfold get_accessible_campus_ids. rewrite Hr. simpl.
    by destruct (accessible_campus_ids u). }
  assert (role u ≠ super_admin) as Hns by (rewrite Hr; discriminate).
  split; [| split; [| split]].
  - unfold can_access_campus. rewrite Hids. by apply contains_false.
  - unfold CampusViews.get_queryset.
    rewrite (bool_decide_eq_false_2 _ Hns), Hids.
    rewrite list_elem_of_fmap. intros ([k row] & Hk & Hin). simpl in Hk.
    subst k. apply elem_of_map_to_list in Hin.
    by apply map_lookup_filter_Some in Hin as [_ Hin].
  - reflexivity.
  - intros qs. unfold Managers.accessible_to_user.
    by rewrite (bool_decide_eq_false_2 _ Hns).
Qed.

(** The administrator of campus 1 with campuses 2 and 7 on the list
    cannot access campus 1, and the request stays on campus 1. *)
Lemma home_campus_left_out_witness :
  can_access_campus Samples.campuses Samples.stale_admin 1 = false
  ∧ campus (process_request Samples.campuses
              (Samples.request Samples.stale_admin None)) = Some 1.
Proof.
  destruct (home_campus_left_out Samples.campuses Samples.stale_admin)
    as (Hno & _ & Hc & _); [reflexivity | discriminate | |].
  - intros Hin. apply contains_true in Hin. discriminate.
  - split; [exact Hno | exact Hc].
Defined.

(** X20.  The campus API lists a campus to a user exactly when the campus
    exists and the user is super administrator or has its id among the
    accessible campus ids; a campus that an override moved the request to is
    always among the campuses listed. *)
Theorem listed_campuses campuses (u : User) :
  (∀ c, c ∈ CampusViews.get_queryset campuses u
        ↔ is_Some (campuses !! c)
          ∧ (role u = super_admin
             ∨ c ∈ get_accessible_campus_ids campuses u))
  ∧ (∀ hdr pk, campus_override campuses u hdr = Some pk →
               pk ∈ CampusViews.get_queryset campuses u).
Proof.
  assert (∀ c, c ∈ CampusViews.get_queryset campuses u
               ↔ is_Some (campuses !! c)
                 ∧ (role u = super_admin
                    ∨ c ∈ get_accessible_campus_ids campuses u)) as Hiff.
  { intros c. unfold CampusViews.get_queryset. case_bool_decide as Hr.
    - rewrite list_elem_of_fmap. split.
      + intros ([k row] & -> & Hin). apply elem_of_map_to_list in Hin.
        simpl in *. split; [by eexists | by left].
      + intros [[row Hl] _]. exists (c, row). split; [done |].
        by apply elem_of_map_to_list.
    - rewrite list_elem_of_fmap. split.
      + intros ([k row] & -> & Hin). apply elem_of_map_to_list in Hin.
        apply map_lookup_filter_Some in Hin as [Hl Hin]. simpl in *.
        split; [by eexists | by right].
      + intros [[row Hl] [? | Hin]]; [done |]. exists (c, row).
        split; [done |]. apply elem_of_map_to_list.
        by apply map_lookup_filter_Some. }
  split; [done |].
  intros hdr pk Ho. apply campus_override_Some in Ho as (_ & _ & Hin & Hex).
  apply Hiff. split; [done | by right].
Qed.

End Access.

(** ** Scoped queries as a whole (apps/campus/managers.py) *)

Section Scoping.
Import Accounts Managers Middleware.
Context {A : Type} `{!CampusAware A}.

Lemma for_campus_idem (qs : list A) (c : Z) :
  for_campus (for_campus qs c) c = for_campus qs c.
Proof.
  unfold for_campus. induction qs as [| row qs IH]; [done |].
  rewrite (filter_cons _ row qs). case_decide as Hc.
  - rewrite (filter_cons _ row (filter _ qs)). rewrite decide_True by done.
    by rewrite IH.
  - done.
Qed.

(** The one campus a user who is not super administrator is scoped to. *)
Lemma accessible_to_user_scope campuses (qs : list A) (u : User)
    (cid : option Z) :
  role u ≠ super_admin →
  ∃ c, accessible_to_user campuses qs u cid = for_campus qs c
       ∧ (c = campus_id u ∨ c ∈ get_accessible_campus_ids campuses u).
Proof.
  intros Hs. unfold accessible_to_user.
  rewrite (bool_decide_eq_false_2 _ Hs).
  destruct cid as [c |]; [| by exists (campus_id u); eauto].
  destruct (Py.truthy_int (Some c)); simpl; [| by exists (campus_id u); eauto].
  destruct (Py.contains c _) eqn:Hin; [| by exists (campus_id u); eauto].
  apply contains_true in Hin. exists c. eauto.
Qed.

(** X21.  [for_user_campus] selects what [accessible_to_user] selects
    when no campus is requested, for every user: everything for a super
    administrator, and the rows of the home campus for anybody else, a
    campus administrator's explicit list playing no part. *)
Theorem for_user_campus_unrequested campuses (qs : list A) (u : User) :
  for_user_campus qs u = accessible_to_user campuses qs u None
  ∧ (role u = super_admin → for_user_campus qs u = qs)
  ∧ (role u ≠ super_admin →
     ∀ row, row ∈ for_user_campus qs u
            ↔ row ∈ qs ∧ campus_id_of row = campus_id u).
Proof.
  unfold for_user_campus, accessible_to_user. split; [| split].
  - by case_bool_decide.
  - intros Hr. by rewrite (bool_decide_eq_true_2 _ Hr).
  - intros Hr row. rewrite (bool_decide_eq_false_2 _ Hr).
    apply elem_of_for_campus.
Qed.

(** X22.  For a super administrator [accessible_to_user] filters by any
    requested campus id other than zero, without asking whether such a
    campus exists or is active, and selects everything when no id or the
    id zero is requested. *)
Theorem super_admin_scope campuses (qs : list A) (u : User) (cid : option Z) :
  role u = super_admin →
  (∀ c, cid = Some c → c ≠ 0 →
        accessible_to_user campuses qs u cid = for_campus qs c)
  ∧ (cid = None ∨ cid = Some 0 → accessible_to_user campuses qs u cid = qs).
Proof.
  intros Hr. unfold accessible_to_user. rewrite (bool_decide_eq_true_2 _ Hr).
  split.
  - intros c -> Hc. simpl. by destruct (Z.eqb_spec c 0).
  - by intros [-> | ->].
Qed.

(** X23.  What [accessible_to_user] selects is a sublist of the query set,
    and scoping the selection again for the same user and requested campus
    selects the same rows. *)
Theorem accessible_to_user_idem campuses (qs : list A) (u : User)
    (cid : option Z) :
  sublist (accessible_to_user campuses qs u cid) qs
  ∧ accessible_to_user campuses (accessible_to_user campuses qs u cid) u cid
    = accessible_to_user campuses qs u cid.
Proof.
  unfold accessible_to_user.
  destruct (bool_decide (role u = super_admin)).
  - destruct cid as [c |]; [| done].
    destruct (Py.truthy_int (Some c)); [| done].
    split; [apply sublist_filter | apply for_campus_idem].
  - destruct cid as [c |];
      [destruct (Py.truthy_int (Some c) && Py.contains c _) |];
      (split; [apply sublist_filter | apply for_campus_idem]).
Qed.

(** X24.  Scoping a query by the campus [process_request] attached to
    the request selects exactly the rows of that campus, for every user and
    header, provided the campus id is not zero. *)
Theorem scoped_by_request_campus campuses (qs : list A) (u : User)
    (hdr : option string) (c : Z) :
  campus (process_request campuses {| user := Some u; HTTP_X_CAMPUS_ID := hdr |})
  = Some c →
  c ≠ 0 →
  accessible_to_user campuses qs u (Some c) = for_campus qs c.
Proof.
  unfold process_request. simpl. intros Hc Hnz.
  unfold accessible_to_user. simpl.
  destruct (Z.eqb_spec c 0) as [? | _]; [done |]. simpl.
  case_bool_decide as Hr; [done |].
  destruct (Py.contains c _) eqn:Hin; [done |].
  apply contains_false in Hin.
  destruct (campus_override campuses u hdr) as [pk |] eqn:Ho.
  - injection Hc as ->.
    apply campus_override_Some in Ho as (_ & _ & Hin' & _). done.
  - by injection Hc as ->.
Qed.

(** X25.  Two users, neither a super administrator, whose home and
    accessible campuses have no campus in common are never shown a common
    row, whatever campuses they request. *)
Theorem disjoint_users_disjoint_rows campuses (qs : list A) (u1 u2 : User)
    (cid1 cid2 : option Z) (row : A) :
  role u1 ≠ super_admin → role u2 ≠ super_admin →
  (∀ c, c = campus_id u1 ∨ c ∈ get_accessible_campus_ids campuses u1 →
        c = campus_id u2 ∨ c ∈ get_accessible_campus_ids campuses u2 →
        False) →
  row ∈ accessible_to_user campuses qs u1 cid1 →
  row ∉ accessible_to_user campuses qs u2 cid2.
Proof.
  intros H1 H2 Hdisj Hin1 Hin2.
  destruct (accessible_to_user_scope campuses qs u1 cid1 H1) as (c1 & E1 & Hc1).
  destruct (accessible_to_user_scope campuses qs u2 cid2 H2) as (c2 & E2 & Hc2).
  rewrite E1 in Hin1. rewrite E2 in Hin2.
  apply elem_of_for_campus in Hin1 as [_ Hr1].
  apply elem_of_for_campus in Hin2 as [_ Hr2].
  apply (Hdisj c1); [done |]. by rewrite <- Hr1, Hr2.
Qed.

End Scoping.

Section ScopingSamples.
Import Accounts Managers Middleware.

(** For the super administrator a requested campus 9, which does not
    exist, selects no user. *)
Lemma super_admin_scope_witness :
  accessible_to_user Samples.campuses [Samples.actor_a; Samples.visitor]
    FurtherSamples.root_admin (Some 9) = [].
Proof.
  destruct (super_admin_scope Samples.campuses
              [Samples.actor_a; Samples.visitor] FurtherSamples.root_admin
              (Some 9) eq_refl) as [Hc _].
  rewrite (Hc 9 eq_refl); [reflexivity | lia].
Defined.

(** The administrator of campus 1 moves the request to campus 2: the
    query scoped by the request's campus selects the user of campus 2. *)
Lemma scoped_by_request_campus_witness :
  accessible_to_user Samples.campuses [Samples.actor_a; Samples.visitor]
    Samples.stale_admin (Some 2) = [Samples.visitor].
Proof.
  rewrite (scoped_by_request_campus Samples.campuses
             [Samples.actor_a; Samples.visitor] Samples.stale_admin
             (Some "2") 2); [reflexivity | by vm_compute | lia].
Defined.

(** Actor A, of campus 1, and the student of campus 2 are shown no common
    user. *)
Lemma disjoint_users_disjoint_rows_witness :
  Samples.actor_a
    ∈ accessible_to_user Samples.campuses [Samples.actor_a; Samples.visitor]
        Samples.actor_a None
  ∧ (Samples.actor_a
       ∉ accessible_to_user Samples.campuses [Samples.actor_a; Samples.visitor]
           Samples.visitor None).
Proof.
  assert (Samples.actor_a
            ∈ accessible_to_user Samples.campuses
                [Samples.actor_a; Samples.visitor] Samples.actor_a None) as Hin.
  { vm_compute. apply list_elem_of_here. }
  split; [exact Hin |].
  apply (disjoint_users_disjoint_rows Samples.campuses
           [Samples.actor_a; Samples.visitor] Samples.actor_a Samples.visitor
           None None Samples.actor_a); [discriminate | discriminate | | exact Hin].
  intros c Hc1 Hc2.
  assert (c = 1) as E1.
  { destruct Hc1 as [-> | Hc1]; [reflexivity |].
    by apply list_elem_of_singleton in Hc1. }
  assert (c = 2) as E2.
  { destruct Hc2 as [-> | Hc2]; [reflexivity |].
    by apply list_elem_of_singleton in Hc2. }
  congruence.
Defined.

End ScopingSamples.

(** ** The campus header, sent and read back (apps/shared/middleware.py,
       [process_response], [process_request]) *)

Section CampusHeader.
Import Accounts Middleware Responses.

(** The decimal digits [pretty] writes are read back by [Py.digits]. *)
Lemma digit_char_spec (d : N) :
  (d < 10)%N →
  Py.digit_val (pretty_N_char d) = Some (Z.of_N d)
  ∧ Py.is_space (pretty_N_char d) = false
  ∧ Ascii.eqb (pretty_N_char d) "_" = false
  ∧ Ascii.eqb (pretty_N_char d) "+" = false
  ∧ Ascii.eqb (pretty_N_char d) "-" = false.
Proof.
  intros Hd.
  assert (d = 0 ∨ d = 1 ∨ d = 2 ∨ d = 3 ∨ d = 4 ∨ d = 5 ∨ d = 6 ∨ d = 7
          ∨ d = 8 ∨ d = 9)%N as Hcases by lia.
  repeat (destruct Hcases as [-> | Hcases]; [by vm_compute |]).
  subst d. by vm_compute.
Qed.

(** The characters [pretty] writes for [x] in front of [s]: decimal
    digits, as many as [x] has, which [Py.digits] reads back as [x]. *)
Lemma pretty_N_go_chars (x : N) :
  ∃ l, (∀ s, list_ascii_of_string (pretty_N_go x s)
             = l ++ list_ascii_of_string s)
       ∧ Forall decimal_digit l
       ∧ (x ≠ 0%N → l ≠ [])
       ∧ (∀ k : nat, (x < 10 ^ N.of_nat k)%N → (length l ≤ k)%nat)
       ∧ ∀ acc b rest,
           Py.digits acc b (l ++ rest)
           = Py.digits (acc * 10 ^ Z.of_nat (length l) + Z.of_N x)
               (match l with [] => b | _ => true end) rest.
Proof.
  induction (N.lt_wf_0 x) as [x _ IH].
  destruct (decide (x = 0%N)) as [-> | Hx].
  - exists []. split; [done |]. split; [done |]. split; [done |].
    split; [intros k _; simpl; lia |].
    intros acc b rest. simpl. f_equal. lia.
  - assert (0 < x)%N as Hpos by lia.
    destruct (IH (x `div` 10)%N) as (l & Hl & Hplain & _ & Hlen & Hdig).
    { by apply N.div_lt. }
    pose proof (digit_char_spec (x `mod` 10)%N) as (Hval & _ & Hund & _);
      [by apply N.mod_lt |].
    exists (l ++ [pretty_N_char (x `mod` 10)]).
    split; [| split; [| split; [| split]]].
    + intros s. rewrite (pretty_N_go_step x s Hpos), Hl. simpl.
      by rewrite <- app_assoc.
    + apply Forall_app. split; [done |]. apply Forall_singleton.
      exists (x `mod` 10)%N. split; [by apply N.mod_lt | done].
    + intros _. by destruct l.
    + intros k Hk. rewrite length_app. simpl.
      destruct k as [| k]; [simpl in Hk; lia |].
      assert (length l ≤ k)%nat; [| lia]. apply Hlen.
      rewrite Nat2N.inj_succ, N.pow_succ_r' in Hk.
      apply N.Div0.div_lt_upper_bound. lia.
    + intros acc b rest. rewrite <- app_assoc. simpl. rewrite Hdig. simpl.
      rewrite Hund, Hval.
      assert (10 * (acc * 10 ^ Z.of_nat (length l) + Z.of_N (x `div` 10))
              + Z.of_N (x `mod` 10)
              = acc * 10 ^ Z.of_nat (length (l ++ [pretty_N_char (x `mod` 10)]))
                + Z.of_N x) as ->.
      { rewrite length_app. simpl. rewrite Nat2Z.inj_add. simpl.
        rewrite Z.pow_add_r by lia.
        rewrite (N.div_mod x 10) at 3 by done.
        rewrite N2Z.inj_add, N2Z.inj_mul. simpl. lia. }
      by destruct l.
Qed.

Lemma digit_count_decimal (l : list ascii) :
  Forall decimal_digit l → Py.digit_count l = Z.of_nat (length l).
Proof.
  induction 1 as [| c l (d & Hd & ->) _ IH]; [done |].
  cbn [Py.digit_count length].
  destruct (digit_char_spec d Hd) as (-> & _). rewrite IH. lia.
Qed.

Lemma lstrip_head (l : list ascii) :
  (∀ c l', l = c :: l' → Py.is_space c = false) → Py.lstrip l = l.
Proof.
  destruct l as [| c l]; [done |]. intros H. simpl.
  by rewrite (H c l eq_refl).
Qed.

Lemma strip_no_space (l : list ascii) :
  Forall (λ c, Py.is_space c = false) l → Py.strip l = l.
Proof.
  intros Hl. unfold Py.strip.
  rewrite (lstrip_head l).
  - rewrite (lstrip_head (reverse l)); [apply reverse_involutive |].
    intros c l' Heq. apply Forall_reverse in Hl. rewrite Heq in Hl.
    by apply Forall_cons in Hl as [? _].
  - intros c l' ->. by apply Forall_cons in Hl as [? _].
Qed.

Lemma plain_no_space (l : list ascii) :
  Forall decimal_digit l → Forall (λ c, Py.is_space c = false) l.
Proof.
  intros Hl. eapply Forall_impl; [exact Hl |]. intros c (d & Hd & ->).
  by destruct (digit_char_spec d Hd) as (_ & ? & _).
Qed.

Lemma pretty_pos_chars (p : positive) :
  ∃ l, list_ascii_of_string (pretty_N (Npos p)) = l
       ∧ Forall decimal_digit l
       ∧ (∃ c r, l = c :: r)
       ∧ (Zpos p < 10 ^ Py.max_str_digits → Py.magnitude l = Some (Zpos p)).
Proof.
  destruct (pretty_N_go_chars (Npos p))
    as (l & Hl & Hplain & Hne & Hlen & Hdig).
  exists l. unfold pretty_N. rewrite decide_False by done.
  rewrite Hl. simpl. rewrite app_nil_r. split; [done |]. split; [done |].
  specialize (Hne ltac:(done)). split.
  - destruct l as [| c r]; [done |]. eauto.
  - intros Hbound.
    unfold Py.magnitude. rewrite (digit_count_decimal _ Hplain).
    assert (length l ≤ Z.to_nat Py.max_str_digits)%nat as Hle.
    { apply Hlen. apply N2Z.inj_lt.
      rewrite N2Z.inj_pow, nat_N_Z, Z2Nat.id by done. exact Hbound. }
    destruct (Z.ltb_spec Py.max_str_digits (Z.of_nat (length l))) as [Hgt | _].
    { apply Nat2Z.inj_le in Hle. rewrite Z2Nat.id in Hle by done. lia. }
    specialize (Hdig 0 false []). rewrite app_nil_r in Hdig. rewrite Hdig.
    destruct l; [done |]. simpl. done.
Qed.

(** [int(str(n))] is [n], for the [n] whose text both conversions
    accept. *)
Lemma int_str_int (n : Z) :
  Z.abs n < 10 ^ Py.max_str_digits → Py.int (str_int n) = Some n.
Proof.
  intros Hbound. destruct n as [| p | p]; [done | |].
  - change (str_int (Z.pos p)) with (pretty_N (N.pos p)).
    destruct (pretty_pos_chars p) as (l & Hl & Hplain & (c & r & ->) & Hdig).
    specialize (Hdig Hbound).
    unfold Py.int. rewrite Hl.
    rewrite (strip_no_space _ (plain_no_space _ Hplain)).
    pose proof Hplain as Hplain'.
    apply Forall_cons in Hplain' as [(d & Hd & ->) _].
    destruct (digit_char_spec d Hd) as (_ & _ & _ & -> & ->). done.
  - change (str_int (Z.neg p)) with ("-" +:+ pretty_N (N.pos p)).
    destruct (pretty_pos_chars p) as (l & Hl & Hplain & (c & r & Hcr) & Hdig).
    specialize (Hdig Hbound).
    unfold Py.int.
    change (list_ascii_of_string ("-" +:+ pretty_N (N.pos p)))
      with ("-"%char :: list_ascii_of_string (pretty_N (N.pos p))).
    rewrite Hl. rewrite strip_no_space.
    + simpl. by rewrite Hdig.
    + apply Forall_cons. split; [done | by apply plain_no_space].
Qed.

Lemma digit_no_line_break (l : list ascii) :
  Forall decimal_digit l → existsb is_line_break l = false.
Proof.
  induction 1 as [| c l (d & Hd & ->) _ IH]; [done |]. simpl.
  rewrite IH, orb_false_r.
  assert (d = 0 ∨ d = 1 ∨ d = 2 ∨ d = 3 ∨ d = 4 ∨ d = 5 ∨ d = 6 ∨ d = 7
          ∨ d = 8 ∨ d = 9)%N as Hcases by lia.
  repeat (destruct Hcases as [-> | Hcases]; [by vm_compute |]).
  subst d. by vm_compute.
Qed.

(** The text of an integer has no line break. *)
Lemma str_int_no_line_break (n : Z) : has_line_break (str_int n) = false.
Proof.
  unfold has_line_break. destruct n as [| p | p]; [done | |].
  - change (str_int (Z.pos p)) with (pretty_N (N.pos p)).
    destruct (pretty_pos_chars p) as (l & -> & Hplain & _).
    by apply digit_no_line_break.
  - change (str_int (Z.neg p)) with ("-" +:+ pretty_N (N.pos p)).
    change (list_ascii_of_string ("-" +:+ pretty_N (N.pos p)))
      with ("-"%char :: list_ascii_of_string (pretty_N (N.pos p))).
    destruct (pretty_pos_chars p) as (l & -> & Hplain & _).
    simpl. by apply digit_no_line_break.
Qed.

(** X26.  For a campus id of at most 4300 digits that is the campus of a
    request: [process_response] fails when the campus code holds a line
    break, and otherwise returns the response with two headers set.  The
    [X-Campus-ID] header is the text of the id, in whatever case of letters
    the header is read; read back as the header of the user's next request
    it parses to that id and leaves the request on the same campus, for
    every user.  The [X-Campus-Code] header is the campus code.  What the
    response held under these two names, in any case of letters, is
    replaced, and every header of another name is as it was. *)
Theorem campus_header_echo campuses (u : User) (hdr : option string) (c : Z)
    (row : CampusModels.Campus) (response : Headers) :
  Z.abs c < 10 ^ Py.max_str_digits →
  campus (process_request campuses {| user := Some u; HTTP_X_CAMPUS_ID := hdr |})
  = Some c →
  (has_line_break (CampusModels.code row) = true →
   process_response (Some (c, row)) response = None)
  ∧ (has_line_break (CampusModels.code row) = false →
     ∃ response',
       process_response (Some (c, row)) response = Some response'
       ∧ (∃ s, (∀ h, lower h = "x-campus-id" → getitem h response' = Some s)
               ∧ Py.int s = Some c
               ∧ campus (process_request campuses
                           {| user := Some u; HTTP_X_CAMPUS_ID := Some s |})
                 = Some c)
       ∧ (∀ h, lower h = "x-campus-code" →
               getitem h response' = Some (CampusModels.code row))
       ∧ ∀ h, lower h ≠ "x-campus-id" → lower h ≠ "x-campus-code" →
              getitem h response' = getitem h response).
Proof.
  intros Hbound Hc.
  assert (setitem "X-Campus-ID" (str_int c) response
          = Some (<["x-campus-id" := ("X-Campus-ID", str_int c)]> response))
    as Hid.
  { unfold setitem. by rewrite str_int_no_line_break. }
  assert (∀ r, setitem "X-Campus-Code" (CampusModels.code row) r
               = if has_line_break (CampusModels.code row) then None
                 else Some (<["x-campus-code"
                               := ("X-Campus-Code", CampusModels.code row)]> r))
    as Hcode by done.
  assert (process_response (Some (c, row)) response
          = setitem "X-Campus-Code" (CampusModels.code row)
              (<["x-campus-id" := ("X-Campus-ID", str_int c)]> response))
    as ->.
  { unfold process_response. by rewrite Hid. }
  rewrite Hcode. split; [by intros -> |]. intros ->.
  eexists. split; [done |].
  unfold getitem. split; [| split].
  - exists (str_int c). split; [| split].
    + intros h ->. by rewrite lookup_insert_ne, lookup_insert_eq.
    + by apply int_str_int.
    + assert (∀ h, campus (process_request campuses
                              {| user := Some u; HTTP_X_CAMPUS_ID := h |})
                   = Some (default (campus_id u)
                             (campus_override campuses u h))) as Heff.
      { intros h. unfold process_request.
        cbn [user HTTP_X_CAMPUS_ID campus].
        by destruct (campus_override campuses u h). }
      rewrite Heff in Hc. rewrite Heff. f_equal. injection Hc as Hc.
      destruct (campus_override campuses u (Some (str_int c)))
        as [pk |] eqn:Ho2.
      * apply campus_override_Some in Ho2 as (_ & (s & [= <-] & Hint) & _).
        rewrite int_str_int in Hint by done. simpl. congruence.
      * destruct (campus_override campuses u hdr) as [pk |] eqn:Ho1;
          [| done].
        simpl in Hc. subst pk. exfalso.
        apply campus_override_Some in Ho1 as (Hr & _ & Hin & Hex).
        assert (campus_override campuses u (Some (str_int c)) = Some c)
          as Hyes.
        { apply campus_override_Some. split; [done |].
          split; [| done]. exists (str_int c). split; [done |].
          by apply int_str_int. }
        congruence.
  - intros h ->. by rewrite lookup_insert_eq.
  - intros h H1 H2. by rewrite !lookup_insert_ne.
Qed.

(** The administrator of campus 1 has moved the request to campus 2: the
    response carries the header "2", also when read as [x-campus-id], and
    that header moves the next request to campus 2 again. *)
Lemma campus_header_echo_witness :
  (process_response
     (Some (2, {| CampusModels.code := "MALIMONO";
                  CampusModels.is_active := true |})) ∅
   ≫= getitem "x-campus-id")
  = Some "2"
  ∧ campus (process_request Samples.campuses
              (Samples.request Samples.stale_admin (Some "2"))) = Some 2.
Proof.
  destruct (campus_header_echo Samples.campuses Samples.stale_admin (Some "2") 2
              {| CampusModels.code := "MALIMONO";
                 CampusModels.is_active := true |} ∅)
    as (_ & Hset).
  - apply Z.lt_le_trans with (10 ^ 1); [done |].
    apply Z.pow_le_mono_r; unfold Py.max_str_digits; lia.
  - by vm_compute.
  - destruct (Hset eq_refl) as (response' & Hres & (s & Hs & _ & Hc) & _).
    specialize (Hs "x-campus-id" eq_refl). rewrite Hres. simpl. rewrite Hs.
    vm_compute in Hres. injection Hres as <-.
    vm_compute in Hs. injection Hs as <-. split; [reflexivity | exact Hc].
Defined.

End CampusHeader.
